(** * Thessaloniki RecycleFinder: the interaction controller, the map surface
      and the Firestore service, embedded from the TypeScript sources.

    - [src/types/index.ts]                       the data model
    - [src/lib/data.tsx]                         the fixed category registry
    - [src/services/recyclingPointsService.ts]   the service over Firestore
    - the [HomePage] component                   the interaction controller
    - the [RecyclingMap] component               the map surface

    JavaScript numbers are IEEE 754 binary64 values: they are Rocq's primitive
    floats.  Strings are [string]; [string | null] is [option string]. *)

From Stdlib Require Import List String Bool ZArith Lia Floats.
Import ListNotations.

Local Open Scope string_scope.
Local Open Scope list_scope.

(* 0.2 is read as the nearest binary64 value, as JavaScript reads it. *)
Set Warnings "-inexact-float".

(** ** JavaScript primitives used by the sources *)

(** Truthiness of a string: only the empty string is falsy. *)
Definition truthy (s : string) : bool := negb (String.eqb s "").

(** Truthiness of a [string | null]. *)
Definition truthyId (o : option string) : bool :=
  match o with
  | Some s => truthy s
  | None => false
  end.

(** [a === b] on [string | null]. *)
Definition strictEq (a b : option string) : bool :=
  match a, b with
  | Some s, Some t => String.eqb s t
  | None, None => true
  | _, _ => false
  end.

(** [arr.includes(v)] on an array of strings. *)
Definition includes (arr : list string) (v : string) : bool :=
  existsb (fun e => String.eqb e v) arr.

Module Math.

(** [Math.min(a, b)]: NaN if either argument is NaN, and -0 is below +0. *)
Definition min (a b : float) : float :=
  if (PrimFloat.is_nan a || PrimFloat.is_nan b)%bool then nan
  else if (a <? b)%float then a
  else if (b <? a)%float then b
  else if PrimFloat.get_sign a then a else b.

(** [Math.max(a, b)]: NaN if either argument is NaN, and +0 is above -0. *)
Definition max (a b : float) : float :=
  if (PrimFloat.is_nan a || PrimFloat.is_nan b)%bool then nan
  else if (a <? b)%float then b
  else if (b <? a)%float then a
  else if PrimFloat.get_sign a then b else a.

End Math.

(** ** [src/types/index.ts] *)

Definition RecyclingCategoryEnum : Type := string.

Module RecyclingPoint.

Record t : Type := mk {
  id : string;
  name : string;
  category : RecyclingCategoryEnum;
  x : float;
  y : float;
  description : string
}.

End RecyclingPoint.

Abbreviation RecyclingPoint := RecyclingPoint.t.

(** [Omit<RecyclingPoint, 'id'>] *)
Module PointData.

Record t : Type := mk {
  name : string;
  category : RecyclingCategoryEnum;
  x : float;
  y : float;
  description : string
}.

End PointData.

(** [Partial<Omit<RecyclingPoint, 'id'>>] *)
Module Updates.

Record t : Type := mk {
  name : option string;
  category : option RecyclingCategoryEnum;
  x : option float;
  y : option float;
  description : option string
}.

End Updates.

(** [{ id, ...pointData }] *)
Definition withId (docId : string) (pointData : PointData.t) : RecyclingPoint :=
  RecyclingPoint.mk docId (PointData.name pointData) (PointData.category pointData)
    (PointData.x pointData) (PointData.y pointData) (PointData.description pointData).

(** [Category], without the icon component. *)
Module Category.

Record t : Type := mk {
  id : RecyclingCategoryEnum;
  label : string;
  color : string;
  markerBgColor : string
}.

End Category.

(** ** [src/lib/data.tsx] *)

Definition INITIAL_CATEGORIES : list Category.t :=
  [ Category.mk "plastic" "Plastic" "text-black" "bg-yellow-100 hover:bg-yellow-200";
    Category.mk "paper" "Paper" "text-black" "bg-yellow-100 hover:bg-yellow-200";
    Category.mk "electronics" "Electronics" "text-black" "bg-yellow-100 hover:bg-yellow-200";
    Category.mk "glass" "Glass" "text-black" "bg-yellow-100 hover:bg-yellow-200";
    Category.mk "metal" "Metal" "text-black" "bg-yellow-100 hover:bg-yellow-200";
    Category.mk "organic" "Organic" "text-black" "bg-yellow-100 hover:bg-yellow-200" ].

(** ** Promises *)

(** How an awaited promise settles. *)
Inductive Settled (A : Type) : Type :=
| Fulfilled (value : A)
| Rejected (message : string).

Arguments Fulfilled {A} value.
Arguments Rejected {A} message.

(** ** [src/services/recyclingPointsService.ts] *)

Module Service.

(** A value stored in a Firestore document field, as JavaScript sees it. *)
Inductive JsValue : Type :=
| JsUndefined
| JsNull
| JsBoolean (b : bool)
| JsNumber (n : float)
| JsString (s : string)
| JsObject.

(** JavaScript's ToBoolean. *)
Definition toBoolean (v : JsValue) : bool :=
  match v with
  | JsUndefined | JsNull => false
  | JsBoolean b => b
  | JsNumber n => negb (PrimFloat.is_zero n || PrimFloat.is_nan n)
  | JsString s => truthy s
  | JsObject => true
  end.

(** [a || b] *)
Definition or (a b : JsValue) : JsValue := if toBoolean a then a else b.

(** [typeof v === 'number' ? v : 0] *)
Definition numberOr0 (v : JsValue) : float :=
  match v with
  | JsNumber n => n
  | _ => 0%float
  end.

(** [DocumentData]: the fields the mapper reads; an absent field reads as
    [undefined]. *)
Record DocumentData : Type := mkData {
  data_name : JsValue;
  data_category : JsValue;
  data_x : JsValue;
  data_y : JsValue;
  data_description : JsValue
}.

Record QueryDocumentSnapshot : Type := mkSnap {
  snap_id : string;
  snap_data : DocumentData
}.

(** The object literal [mapDocToRecyclingPoint] builds.  The source asserts it
    to be a [RecyclingPoint]; at run time a truthy stored value of any type is
    passed through by [||], so the three text fields are JavaScript values. *)
Record MappedPoint : Type := mkMapped {
  id : string;
  name : JsValue;
  category : JsValue;
  x : float;
  y : float;
  description : JsValue
}.

Definition mapDocToRecyclingPoint (docSnap : QueryDocumentSnapshot) : MappedPoint :=
  let data := snap_data docSnap in
  {| id := snap_id docSnap;
     name := or (data_name data) (JsString "Unnamed Point");
     category := or (data_category data) (JsString "unknown");
     x := numberOr0 (data_x data);
     y := numberOr0 (data_y data);
     description := or (data_description data) (JsString "") |}.

(** Each service function first checks the database handle [db], then awaits
    one Firestore call inside [try]; a failure is re-thrown with a prefixed
    message.  [db] tells whether the handle is initialised and the [Settled]
    argument is how the Firestore call settles if it is made. *)

Definition getRecyclingPointsFromDB (db : bool)
    (getDocs : Settled (list QueryDocumentSnapshot)) : Settled (list MappedPoint) :=
  if negb db then
    Rejected "SERVICE_ERROR (getRecyclingPointsFromDB): Firestore database (db) is not initialized. Check Firebase configuration and SERVER logs."
  else
    match getDocs with
    | Fulfilled docs => Fulfilled (map mapDocToRecyclingPoint docs)
    | Rejected originalErrorMessage =>
        Rejected ("SERVICE_ERROR (getRecyclingPointsFromDB): Firestore operation failed. Original error: " ++ originalErrorMessage)
    end.

Definition addRecyclingPointToDB (db : bool) (pointData : PointData.t)
    (addDoc : Settled string) : Settled RecyclingPoint :=
  if negb db then
    Rejected "SERVICE_ERROR (addRecyclingPointToDB): Firestore database (db) is not initialized. Check Firebase configuration and SERVER logs."
  else
    match addDoc with
    | Fulfilled docRef_id => Fulfilled (withId docRef_id pointData)
    | Rejected originalErrorMessage =>
        Rejected ("SERVICE_ERROR (addRecyclingPointToDB): Firestore operation failed. Original error: " ++ originalErrorMessage)
    end.

Definition updateRecyclingPointInDB (db : bool) (pointId : string)
    (updates : Updates.t) (updateDoc : Settled unit) : Settled unit :=
  if negb db then
    Rejected ("SERVICE_ERROR (updateRecyclingPointInDB for point " ++ pointId ++ "): Firestore database (db) is not initialized. Check Firebase configuration and SERVER logs.")
  else
    match updateDoc with
    | Fulfilled _ => Fulfilled tt
    | Rejected originalErrorMessage =>
        Rejected ("SERVICE_ERROR (updateRecyclingPointInDB for point " ++ pointId ++ "): Firestore operation failed. Original error: " ++ originalErrorMessage)
    end.

Definition deleteRecyclingPointFromDB (db : bool) (pointId : string)
    (deleteDoc : Settled unit) : Settled unit :=
  if negb db then
    Rejected ("SERVICE_ERROR (deleteRecyclingPointFromDB for point " ++ pointId ++ "): Firestore database (db) is not initialized. Check Firebase configuration and SERVER logs.")
  else
    match deleteDoc with
    | Fulfilled _ => Fulfilled tt
    | Rejected originalErrorMessage =>
        Rejected ("SERVICE_ERROR (deleteRecyclingPointFromDB for point " ++ pointId ++ "): Firestore operation failed. Original error: " ++ originalErrorMessage)
    end.

End Service.

(** ** The [HomePage] component: state *)

(** One field per [useState] cell of [HomePage].  The [categories] cell is
    initialised with [INITIAL_CATEGORIES] and its setter is never called, so it
    is that constant. *)
Record State : Type := mkState {
  allPoints : list RecyclingPoint;
  selectedCategories : list RecyclingCategoryEnum;
  selectedPoint : option RecyclingPoint;
  isClient : bool;
  editingPointId : option string;
  isSelectingLocation : bool;
  isAddingNewPointMode : bool;
  categoryForNewPoint : RecyclingCategoryEnum;
  isLoading : bool;
  error : option string;
  currentUserLocationMarker : option (float * float)
}.

Definition categories : list Category.t := INITIAL_CATEGORIES.

(** The initial values given to [useState]. *)
Definition initialState : State :=
  {| allPoints := [];
     selectedCategories := [];
     selectedPoint := None;
     isClient := false;
     editingPointId := None;
     isSelectingLocation := false;
     isAddingNewPointMode := false;
     categoryForNewPoint := "";
     isLoading := true;
     error := None;
     currentUserLocationMarker := None |}.

(** A toast, identified by its title. *)
Definition Toast : Type := string.

(** What a piece of handler code does when it runs: it updates the state
    cells and shows toasts.  A handler reads the cells of the render it was
    created in (its first argument [snap] below) and writes through setters,
    which act on the state current at the time they run. *)
Definition Action : Type := State -> State * list Toast.

Definition skip : Action := fun s => (s, []).

Definition andThen (a b : Action) : Action :=
  fun s => let (s1, t1) := a s in let (s2, t2) := b s1 in (s2, t1 ++ t2).

Notation "a ;; b" := (andThen a b) (at level 61, right associativity).

Definition toast (title : string) : Action := fun s => (s, [title]).

(** The state an action leaves. *)
Definition after (a : Action) (s : State) : State := fst (a s).

(** The toasts an action shows. *)
Definition toasts (a : Action) (s : State) : list Toast := snd (a s).

(** The setters; [setAllPoints] and [setSelectedCategories] are also called
    with an updater function of the previous value. *)

Definition updateAllPoints (f : list RecyclingPoint -> list RecyclingPoint) : Action :=
  fun s => (mkState (f (allPoints s)) (selectedCategories s) (selectedPoint s) (isClient s)
              (editingPointId s) (isSelectingLocation s) (isAddingNewPointMode s)
              (categoryForNewPoint s) (isLoading s) (error s) (currentUserLocationMarker s), []).

Definition setAllPoints (v : list RecyclingPoint) : Action := updateAllPoints (fun _ => v).

Definition updateSelectedCategories
    (f : list RecyclingCategoryEnum -> list RecyclingCategoryEnum) : Action :=
  fun s => (mkState (allPoints s) (f (selectedCategories s)) (selectedPoint s) (isClient s)
              (editingPointId s) (isSelectingLocation s) (isAddingNewPointMode s)
              (categoryForNewPoint s) (isLoading s) (error s) (currentUserLocationMarker s), []).

Definition setSelectedCategories (v : list RecyclingCategoryEnum) : Action :=
  updateSelectedCategories (fun _ => v).

Definition setSelectedPoint (v : option RecyclingPoint) : Action :=
  fun s => (mkState (allPoints s) (selectedCategories s) v (isClient s)
              (editingPointId s) (isSelectingLocation s) (isAddingNewPointMode s)
              (categoryForNewPoint s) (isLoading s) (error s) (currentUserLocationMarker s), []).

Definition setIsClient (v : bool) : Action :=
  fun s => (mkState (allPoints s) (selectedCategories s) (selectedPoint s) v
              (editingPointId s) (isSelectingLocation s) (isAddingNewPointMode s)
              (categoryForNewPoint s) (isLoading s) (error s) (currentUserLocationMarker s), []).

Definition setEditingPointId (v : option string) : Action :=
  fun s => (mkState (allPoints s) (selectedCategories s) (selectedPoint s) (isClient s)
              v (isSelectingLocation s) (isAddingNewPointMode s)
              (categoryForNewPoint s) (isLoading s) (error s) (currentUserLocationMarker s), []).

Definition setIsSelectingLocation (v : bool) : Action :=
  fun s => (mkState (allPoints s) (selectedCategories s) (selectedPoint s) (isClient s)
              (editingPointId s) v (isAddingNewPointMode s)
              (categoryForNewPoint s) (isLoading s) (error s) (currentUserLocationMarker s), []).

Definition setIsAddingNewPointMode (v : bool) : Action :=
  fun s => (mkState (allPoints s) (selectedCategories s) (selectedPoint s) (isClient s)
              (editingPointId s) (isSelectingLocation s) v
              (categoryForNewPoint s) (isLoading s) (error s) (currentUserLocationMarker s), []).

Definition setCategoryForNewPoint (v : RecyclingCategoryEnum) : Action :=
  fun s => (mkState (allPoints s) (selectedCategories s) (selectedPoint s) (isClient s)
              (editingPointId s) (isSelectingLocation s) (isAddingNewPointMode s)
              v (isLoading s) (error s) (currentUserLocationMarker s), []).

Definition setIsLoading (v : bool) : Action :=
  fun s => (mkState (allPoints s) (selectedCategories s) (selectedPoint s) (isClient s)
              (editingPointId s) (isSelectingLocation s) (isAddingNewPointMode s)
              (categoryForNewPoint s) v (error s) (currentUserLocationMarker s), []).

Definition setError (v : option string) : Action :=
  fun s => (mkState (allPoints s) (selectedCategories s) (selectedPoint s) (isClient s)
              (editingPointId s) (isSelectingLocation s) (isAddingNewPointMode s)
              (categoryForNewPoint s) (isLoading s) v (currentUserLocationMarker s), []).

Definition setCurrentUserLocationMarker (v : option (float * float)) : Action :=
  fun s => (mkState (allPoints s) (selectedCategories s) (selectedPoint s) (isClient s)
              (editingPointId s) (isSelectingLocation s) (isAddingNewPointMode s)
              (categoryForNewPoint s) (isLoading s) (error s) v, []).

(** An [async] handler either finishes without awaiting anything, or awaits
    one call of the service and continues with how that call settles. *)
Inductive Async : Type :=
| Return (now : Action)
| AwaitGet (k : Settled (list RecyclingPoint) -> Action)
| AwaitAdd (pointData : PointData.t) (k : Settled RecyclingPoint -> Action)
| AwaitUpdate (pointId : string) (updates : Updates.t) (k : Settled unit -> Action)
| AwaitDelete (pointId : string) (k : Settled unit -> Action).

(** A call of the service, as the point store receives it. *)
Inductive StoreCall : Type :=
| CallGet
| CallAdd (pointData : PointData.t)
| CallUpdate (pointId : string) (updates : Updates.t)
| CallDelete (pointId : string).

Definition storeCalls (a : Async) : list StoreCall :=
  match a with
  | Return _ => []
  | AwaitGet _ => [CallGet]
  | AwaitAdd pointData _ => [CallAdd pointData]
  | AwaitUpdate pointId updates _ => [CallUpdate pointId updates]
  | AwaitDelete pointId _ => [CallDelete pointId]
  end.

(** ** The [HomePage] component: handlers

    In every handler [snap] is the state of the render the handler closes
    over: what the handler reads.  Its setters act on the current state. *)

(** [allPoints.find(p => p.id === pointId)] *)
Definition findPoint (points : list RecyclingPoint) (pointId : string) : option RecyclingPoint :=
  find (fun p => String.eqb (RecyclingPoint.id p) pointId) points.

(** [prevPoints.map(p => (p.id === pointId ? updated : p))] *)
Definition replacePoint (pointId : string) (updated : RecyclingPoint)
    (prevPoints : list RecyclingPoint) : list RecyclingPoint :=
  map (fun p => if String.eqb (RecyclingPoint.id p) pointId then updated else p) prevPoints.

(** [selectedPoint && selectedPoint.id === pointId] *)
Definition isSelected (snap : State) (pointId : string) : bool :=
  match selectedPoint snap with
  | Some p => String.eqb (RecyclingPoint.id p) pointId
  | None => false
  end.

Definition handleCloseDialog : Action :=
  setSelectedPoint None ;;
  setEditingPointId None ;;
  setIsSelectingLocation false.

(** The body of the mount effect: the synchronous part, and the fetch it
    starts.  The message shown for a failed fetch is built from the error; it
    is kept as the error's own message. *)
Definition fetchPoints : Async :=
  AwaitGet (fun settled =>
    match settled with
    | Fulfilled pointsFromDB =>
        setAllPoints pointsFromDB ;;
        setIsLoading false
    | Rejected message =>
        setError (Some message) ;;
        toast "Error Loading Recycling Points" ;;
        setIsLoading false
    end).

Definition mountEffect : Action :=
  setIsClient true ;;
  setIsLoading true ;;
  setError None ;;
  setSelectedCategories (map Category.id INITIAL_CATEGORIES).

Definition handleCategoryChange (categoryId : RecyclingCategoryEnum) (checked : bool) : Action :=
  updateSelectedCategories (fun prevSelectedCategories =>
    if checked
    then prevSelectedCategories ++ [categoryId]
    else filter (fun id => negb (String.eqb id categoryId)) prevSelectedCategories).

Definition handlePointSelect (snap : State) (point : RecyclingPoint) : Action :=
  if isAddingNewPointMode snap then toast "Adding New Point"
  else if isSelectingLocation snap then toast "Location Selection Active"
  else if truthyId (editingPointId snap)
          && negb (strictEq (editingPointId snap) (Some (RecyclingPoint.id point)))
          && negb (isSelectingLocation snap)
  then toast "Edit Mode Active"
  else setSelectedPoint (Some point).

Definition filteredPoints (s : State) : list RecyclingPoint :=
  if Nat.eqb (List.length (selectedCategories s)) 0 then []
  else filter (fun point => includes (selectedCategories s) (RecyclingPoint.category point))
         (allPoints s).

Definition resetFilters : Action :=
  setSelectedCategories (map Category.id categories).

Definition handleToggleEditMode (snap : State) (pointIdToToggle : option string) : Action :=
  setIsAddingNewPointMode false ;;
  if strictEq (editingPointId snap) pointIdToToggle && negb (isSelectingLocation snap)
  then setEditingPointId None
  else
    match pointIdToToggle with
    | None =>
        setEditingPointId None ;;
        setIsSelectingLocation false
    | Some pointId =>
        setEditingPointId (Some pointId) ;;
        setIsSelectingLocation false ;;
        setSelectedPoint (findPoint (allPoints snap) pointId)
    end.

Definition handleChangeLocationStart (snap : State) : Action :=
  if truthyId (editingPointId snap)
  then setIsSelectingLocation true ;; toast "Select New Location"
  else skip.

Definition handlePointCoordinateChange (snap : State) (pointId : string)
    (newX newY : float) : Async :=
  match findPoint (allPoints snap) pointId with
  | None => Return skip
  | Some pointToUpdate =>
      let updatedPointData :=
        RecyclingPoint.mk (RecyclingPoint.id pointToUpdate) (RecyclingPoint.name pointToUpdate)
          (RecyclingPoint.category pointToUpdate) newX newY
          (RecyclingPoint.description pointToUpdate) in
      AwaitUpdate pointId (Updates.mk None None (Some newX) (Some newY) None)
        (fun settled =>
           match settled with
           | Fulfilled _ =>
               updateAllPoints (replacePoint pointId updatedPointData) ;;
               setSelectedPoint (Some updatedPointData) ;;
               setEditingPointId (Some pointId) ;;
               setIsSelectingLocation false ;;
               toast "Point Moved"
           | Rejected _ =>
               toast "Error Moving Point" ;;
               setIsSelectingLocation false ;;
               setSelectedPoint (Some pointToUpdate) ;;
               setEditingPointId (Some pointId)
           end)
  end.

Definition handlePointCategoryChange (snap : State) (pointId : string)
    (newCategoryId : RecyclingCategoryEnum) : Async :=
  match findPoint (allPoints snap) pointId with
  | None => Return skip
  | Some pointToUpdate =>
      let updatedPointData :=
        RecyclingPoint.mk (RecyclingPoint.id pointToUpdate) (RecyclingPoint.name pointToUpdate)
          newCategoryId (RecyclingPoint.x pointToUpdate) (RecyclingPoint.y pointToUpdate)
          (RecyclingPoint.description pointToUpdate) in
      AwaitUpdate pointId (Updates.mk None (Some newCategoryId) None None None)
        (fun settled =>
           match settled with
           | Fulfilled _ =>
               updateAllPoints (replacePoint pointId updatedPointData) ;;
               (if isSelected snap pointId
                then setSelectedPoint (Some updatedPointData) else skip) ;;
               toast "Category Updated"
           | Rejected _ =>
               toast "Error Updating Category"
           end)
  end.

Definition handlePointNameChange (snap : State) (pointId : string) (newName : string) : Async :=
  match findPoint (allPoints snap) pointId with
  | None => Return skip
  | Some pointToUpdate =>
      let updatedNameData :=
        RecyclingPoint.mk (RecyclingPoint.id pointToUpdate) newName
          (RecyclingPoint.category pointToUpdate) (RecyclingPoint.x pointToUpdate)
          (RecyclingPoint.y pointToUpdate) (RecyclingPoint.description pointToUpdate) in
      AwaitUpdate pointId (Updates.mk (Some newName) None None None None)
        (fun settled =>
           match settled with
           | Fulfilled _ =>
               updateAllPoints (replacePoint pointId updatedNameData) ;;
               (if isSelected snap pointId
                then setSelectedPoint (Some updatedNameData) else skip)
           | Rejected _ =>
               toast "Error Renaming Point"
           end)
  end.

Definition handlePointDescriptionChange (snap : State) (pointId : string)
    (newDescription : string) : Async :=
  match findPoint (allPoints snap) pointId with
  | None => Return skip
  | Some pointToUpdate =>
      let updatedDescriptionData :=
        RecyclingPoint.mk (RecyclingPoint.id pointToUpdate) (RecyclingPoint.name pointToUpdate)
          (RecyclingPoint.category pointToUpdate) (RecyclingPoint.x pointToUpdate)
          (RecyclingPoint.y pointToUpdate) newDescription in
      AwaitUpdate pointId (Updates.mk None None None None (Some newDescription))
        (fun settled =>
           match settled with
           | Fulfilled _ =>
               updateAllPoints (replacePoint pointId updatedDescriptionData) ;;
               (if isSelected snap pointId
                then setSelectedPoint (Some updatedDescriptionData) else skip)
           | Rejected _ =>
               toast "Error Updating Description"
           end)
  end.

Definition handleInitiateAddPoint (snap : State) : Action :=
  if negb (truthy (categoryForNewPoint snap))
  then toast "No Category Selected"
  else
    setIsAddingNewPointMode true ;;
    setIsSelectingLocation false ;;
    setEditingPointId None ;;
    setSelectedPoint None ;;
    toast "Add New Point".

Definition handlePlaceNewPoint (snap : State) (newX newY : float) : Async :=
  if negb (isAddingNewPointMode snap) || negb (truthy (categoryForNewPoint snap))
  then Return skip
  else
    let newPointData :=
      PointData.mk "New Recycling Point" (categoryForNewPoint snap) newX newY "" in
    AwaitAdd newPointData
      (fun settled =>
         match settled with
         | Fulfilled addedPointWithId =>
             updateAllPoints (fun prev => prev ++ [addedPointWithId]) ;;
             setSelectedPoint (Some addedPointWithId) ;;
             setEditingPointId (Some (RecyclingPoint.id addedPointWithId)) ;;
             setIsAddingNewPointMode false ;;
             setCategoryForNewPoint "" ;;
             toast "Point Added"
         | Rejected _ =>
             toast "Error Adding Point" ;;
             setIsAddingNewPointMode false ;;
             setCategoryForNewPoint ""
         end).

Definition handleProblemReportSubmit (snap : State) (pointId : string) : Action :=
  match findPoint (allPoints snap) pointId with
  | Some point => toast "Report Submitted"
  | None => skip
  end.

Definition handleDeletePoint (snap : State) (pointId : string) : Async :=
  match findPoint (allPoints snap) pointId with
  | None => Return skip
  | Some pointToDelete =>
      AwaitDelete pointId
        (fun settled =>
           match settled with
           | Fulfilled _ =>
               updateAllPoints
                 (filter (fun p => negb (String.eqb (RecyclingPoint.id p) pointId))) ;;
               handleCloseDialog ;;
               toast "Point Deleted"
           | Rejected _ =>
               toast "Error Deleting Point"
           end)
  end.

(** [handleTrackMe]: the synchronous part, and the two geolocation callbacks. *)
Definition handleTrackMe (geolocationSupported : bool) : Action :=
  if negb geolocationSupported
  then toast "Geolocation Not Supported"
  else setCurrentUserLocationMarker None.

Definition geolocationFound : Action :=
  toast "Location Found" ;;
  setCurrentUserLocationMarker (Some (50%float, 50%float)).

Definition geolocationFailed : Action := toast "Geolocation Error".

(** The [keydown] listener. *)
Definition handleKeyDown (snap : State) (key : string) : Action :=
  if String.eqb key "Escape" then
    if isAddingNewPointMode snap then
      setIsAddingNewPointMode false ;;
      setCategoryForNewPoint "" ;;
      toast "Add Point Cancelled"
    else if isSelectingLocation snap then
      setIsSelectingLocation false ;;
      (match editingPointId snap with
       | Some editing =>
           if truthy editing
           then setSelectedPoint (findPoint (allPoints snap) editing)
           else skip
       | None => skip
       end) ;;
      toast "Location Change Cancelled"
    else if (match selectedPoint snap with Some _ => true | None => false end)
            && negb (truthyId (editingPointId snap))
    then handleCloseDialog
    else skip
  else skip.

(** [dialogOpen]: whether the details dialog is shown. *)
Definition dialogOpen (s : State) : bool :=
  (match selectedPoint s with Some _ => true | None => false end)
  && negb (isSelectingLocation s) && negb (isAddingNewPointMode s).

(** ** The [RecyclingMap] component *)

Module RecyclingMap.

Definition imageWidth : float := 2000%float.
Definition imageHeight : float := 1500%float.

Definition handleZoomIn (s : float) : float := Math.min (s + 0.2)%float 3%float.
Definition handleZoomOut (s : float) : float := Math.max (s - 0.2)%float 0.5%float.
Definition handleReset (s : float) : float := 1%float.

(** What [handleMapClick] reads from the click and from the DOM:
    [viewportRef.current], whether the target lies within a point marker or
    the location marker, the bounding rectangle of the map container (the
    viewport's first child) when there is one, and the pointer position. *)
Record MouseEvent : Type := mkClick {
  viewportRef_current : bool;
  targetInMarker : bool;
  mapContainer_rect : option (float * float);
  clientX : float;
  clientY : float
}.

(** [Math.max(0, Math.min(100, v))] *)
Definition clamp (v : float) : float := Math.max 0%float (Math.min 100%float v).

(** The percentage before clamping, along one axis. *)
Definition rawPercent (client origin imageSize currentScale : float) : float :=
  let onImage := (client - origin)%float in
  ((onImage / (imageSize * currentScale)) * 100)%float.

(** The pair [(newXPercent, newYPercent)] computed for a click whose map
    container has its top-left corner at [(rect_left, rect_top)]. *)
Definition percentages (currentScale rect_left rect_top : float) (e : MouseEvent)
    : float * float :=
  let newXPercent := rawPercent (clientX e) rect_left imageWidth currentScale in
  let newYPercent := rawPercent (clientY e) rect_top imageHeight currentScale in
  (clamp newXPercent, clamp newYPercent).

(** The prop callback [handleMapClick] ends up calling, if any. *)
Inductive Callback : Type :=
| NoCallback
| onPlaceNewPoint (newX newY : float)
| onPointCoordinateChange (pointId : string) (newX newY : float).

Definition handleMapClick (props : State) (currentScale : float) (e : MouseEvent) : Callback :=
  if negb (viewportRef_current e) then NoCallback
  else if targetInMarker e then NoCallback
  else
    match mapContainer_rect e with
    | None => NoCallback
    | Some (rect_left, rect_top) =>
        let (newXPercent, newYPercent) := percentages currentScale rect_left rect_top e in
        if isAddingNewPointMode props then onPlaceNewPoint newXPercent newYPercent
        else
          match editingPointId props with
          | Some editing =>
              if truthy editing && isSelectingLocation props
              then onPointCoordinateChange editing newXPercent newYPercent
              else NoCallback
          | None => NoCallback
          end
    end.

(** The [onClick] given to each [PointMarker]: whether it calls
    [onPointSelect(point)]. *)
Definition markerOnClick (props : State) : bool :=
  if negb (isSelectingLocation props) && negb (isAddingNewPointMode props) then true
  else if isSelectingLocation props && negb (isAddingNewPointMode props) then true
  else false.

End RecyclingMap.

(** ** The page as a whole: user events, pending service calls *)

(** What the user (or the browser) can do.  The details dialog keeps two
    cells of its own, [showProblemReportForm] and [showDeleteConfirm]; where a
    dialog handler reads one, the event carries its value. *)
Inductive Event : Type :=
| KeyDown (key : string)
| CategoryCheckbox (categoryId : RecyclingCategoryEnum) (checked : bool)
| ResetFiltersClick
| TrackMeClick (geolocationSupported : bool)
| GeolocationCallback (found : bool)
| NewPointCategorySelect (value : RecyclingCategoryEnum)
| AddPointClick
| MarkerClick (index : nat)
| MapClick (e : RecyclingMap.MouseEvent)
| ZoomInClick
| ZoomOutClick
| ZoomResetClick
| DialogClose
| DialogEditClick
| DialogFinishEditing
| DialogToggleProblemReportForm (showProblemReportForm : bool)
| DialogProblemReportSubmit
| DialogNameInput (value : string)
| DialogDescriptionInput (value : string)
| DialogCategorySelect (newCategoryId : RecyclingCategoryEnum)
| DialogChangeLocation
| DialogDeleteConfirmed.

(** The page proper is rendered once the client has mounted, loading is over
    and no error is set; before that a placeholder page is returned. *)
Definition pageRendered (s : State) : bool :=
  isClient s && negb (isLoading s) && (match error s with None => true | Some _ => false end).

(** [isCurrentlyEditingThisPoint] of the dialog. *)
Definition isCurrentlyEditingThisPoint (s : State) (point : RecyclingPoint) : bool :=
  strictEq (editingPointId s) (Some (RecyclingPoint.id point)).

(** The dialog's controls exist while the dialog is open on a point. *)
Definition dialogPoint (s : State) : option RecyclingPoint :=
  if pageRendered s && dialogOpen s then selectedPoint s else None.

(** The handler an event runs, as the JSX wires it; [None] when the control
    is not there (not rendered, disabled, or the dialog is closed).  Guards on
    the dialog's own cells are left out, which only allows more. *)
Definition dispatch (s : State) (currentScale : float) (ev : Event) : option Async :=
  match ev with
  | KeyDown key => Some (Return (handleKeyDown s key))
  | CategoryCheckbox categoryId checked =>
      if pageRendered s && includes (map Category.id categories) categoryId
      then Some (Return (handleCategoryChange categoryId checked)) else None
  | ResetFiltersClick =>
      if pageRendered s then Some (Return resetFilters) else None
  | TrackMeClick geolocationSupported =>
      if pageRendered s then Some (Return (handleTrackMe geolocationSupported)) else None
  | GeolocationCallback found =>
      Some (Return (if found then geolocationFound else geolocationFailed))
  | NewPointCategorySelect value =>
      if pageRendered s && includes (map Category.id categories) value
      then Some (Return (setCategoryForNewPoint value)) else None
  | AddPointClick =>
      if pageRendered s && truthy (categoryForNewPoint s)
      then Some (Return (handleInitiateAddPoint s)) else None
  | MarkerClick index =>
      if pageRendered s then
        match nth_error (filteredPoints s) index with
        | Some point =>
            Some (Return (if RecyclingMap.markerOnClick s
                          then handlePointSelect s point else skip))
        | None => None
        end
      else None
  | MapClick e =>
      if pageRendered s then
        match RecyclingMap.handleMapClick s currentScale e with
        | RecyclingMap.NoCallback => Some (Return skip)
        | RecyclingMap.onPlaceNewPoint newX newY => Some (handlePlaceNewPoint s newX newY)
        | RecyclingMap.onPointCoordinateChange pointId newX newY =>
            Some (handlePointCoordinateChange s pointId newX newY)
        end
      else None
  | ZoomInClick | ZoomOutClick | ZoomResetClick =>
      if pageRendered s then Some (Return skip) else None
  | DialogClose =>
      match dialogPoint s with
      | Some point => Some (Return handleCloseDialog)
      | None => None
      end
  | DialogEditClick =>
      match dialogPoint s with
      | Some point =>
          if negb (isCurrentlyEditingThisPoint s point)
          then Some (Return (handleToggleEditMode s (Some (RecyclingPoint.id point))))
          else None
      | None => None
      end
  | DialogFinishEditing =>
      match dialogPoint s with
      | Some point =>
          if isCurrentlyEditingThisPoint s point
          then Some (Return (handleToggleEditMode s None ;; toast "Edits Saved"))
          else None
      | None => None
      end
  | DialogToggleProblemReportForm showProblemReportForm =>
      match dialogPoint s with
      | Some point =>
          Some (Return (if isCurrentlyEditingThisPoint s point && negb showProblemReportForm
                        then handleToggleEditMode s None else skip))
      | None => None
      end
  | DialogProblemReportSubmit =>
      match dialogPoint s with
      | Some point => Some (Return (handleProblemReportSubmit s (RecyclingPoint.id point)))
      | None => None
      end
  | DialogNameInput value =>
      match dialogPoint s with
      | Some point =>
          if isCurrentlyEditingThisPoint s point
          then Some (handlePointNameChange s (RecyclingPoint.id point) value)
          else None
      | None => None
      end
  | DialogDescriptionInput value =>
      match dialogPoint s with
      | Some point =>
          if isCurrentlyEditingThisPoint s point
          then Some (handlePointDescriptionChange s (RecyclingPoint.id point) value)
          else None
      | None => None
      end
  | DialogCategorySelect newCategoryId =>
      match dialogPoint s with
      | Some point =>
          if isCurrentlyEditingThisPoint s point
             && includes (map Category.id categories) newCategoryId
          then Some (handlePointCategoryChange s (RecyclingPoint.id point) newCategoryId)
          else None
      | None => None
      end
  | DialogChangeLocation =>
      match dialogPoint s with
      | Some point =>
          if isCurrentlyEditingThisPoint s point
          then Some (Return (handleChangeLocationStart s))
          else None
      | None => None
      end
  | DialogDeleteConfirmed =>
      match dialogPoint s with
      | Some point =>
          if isCurrentlyEditingThisPoint s point
          then Some (handleDeletePoint s (RecyclingPoint.id point))
          else None
      | None => None
      end
  end.

(** The map's own [currentScale] cell after an event. *)
Definition zoom (currentScale : float) (ev : Event) : float :=
  match ev with
  | ZoomInClick => RecyclingMap.handleZoomIn currentScale
  | ZoomOutClick => RecyclingMap.handleZoomOut currentScale
  | ZoomResetClick => RecyclingMap.handleReset currentScale
  | _ => currentScale
  end.

(** How the backend answers one service call: whether the database handle
    is initialised, and how each Firestore call settles.  For the fetch it
    is how [getRecyclingPointsFromDB] itself settles, its list taken as the
    controller types it, [RecyclingPoint[]]. *)
Record Backend : Type := mkBackend {
  db : bool;
  getRecyclingPoints : Settled (list RecyclingPoint);
  addDoc : Settled string;
  updateDoc : Settled unit;
  deleteDoc : Settled unit
}.

(** Firestore never hands out an empty document id. *)
Definition backendOk (b : Backend) : bool :=
  match addDoc b with
  | Fulfilled docRef_id => truthy docRef_id
  | Rejected _ => true
  end.

(** The rest of an [async] handler once its awaited call has settled. *)
Definition settle (b : Backend) (a : Async) : Action :=
  match a with
  | Return now => now
  | AwaitGet k => k (getRecyclingPoints b)
  | AwaitAdd pointData k => k (Service.addRecyclingPointToDB (db b) pointData (addDoc b))
  | AwaitUpdate pointId updates k =>
      k (Service.updateRecyclingPointInDB (db b) pointId updates (updateDoc b))
  | AwaitDelete pointId k =>
      k (Service.deleteRecyclingPointFromDB (db b) pointId (deleteDoc b))
  end.

(** A handler run to completion from state [s], its call answered by [b]:
    the state and toasts it leaves. *)
Definition run (b : Backend) (handler : State -> Async) (s : State) : State * list Toast :=
  settle b (handler s) s.

(** The page: the controller's state, the map's zoom factor, and the service
    calls that have been issued and have not settled yet. *)
Record App : Type := mkApp {
  home : State;
  currentScale : float;
  inflight : list Async
}.

Inductive Input : Type :=
| User (ev : Event)
| Settles (index : nat) (b : Backend).

Fixpoint removeNth {A : Type} (n : nat) (l : list A) : list A :=
  match n, l with
  | _, [] => []
  | O, _ :: rest => rest
  | S m, a :: rest => a :: removeNth m rest
  end.

Definition next (a : App) (i : Input) : option App :=
  match i with
  | User ev =>
      match dispatch (home a) (currentScale a) ev with
      | None => None
      | Some (Return now) =>
          Some (mkApp (after now (home a)) (zoom (currentScale a) ev) (inflight a))
      | Some pending =>
          Some (mkApp (home a) (currentScale a) (inflight a ++ [pending]))
      end
  | Settles index b =>
      if backendOk b then
        match nth_error (inflight a) index with
        | Some pending =>
            Some (mkApp (after (settle b pending) (home a)) (currentScale a)
                    (removeNth index (inflight a)))
        | None => None
        end
      else None
  end.

(** The page after its mount effect has run: the fetch is in flight. *)
Definition mounted : App :=
  mkApp (after mountEffect initialState) 1%float [fetchPoints].

Inductive reachable : App -> Prop :=
| reachable_mounted : reachable mounted
| reachable_next (a a' : App) (i : Input) :
    reachable a -> next a i = Some a' -> reachable a'.

Fixpoint feed (a : App) (inputs : list Input) : option App :=
  match inputs with
  | [] => Some a
  | i :: rest =>
      match next a i with
      | Some a' => feed a' rest
      | None => None
      end
  end.

(** ** Sample data *)

(** A stored document with no name, category or description, a textual x
    and a y far outside the map. *)
Definition strayDoc : Service.QueryDocumentSnapshot :=
  Service.mkSnap "doc1"
    (Service.mkData Service.JsUndefined Service.JsUndefined
       (Service.JsString "12") (Service.JsNumber 250%float) Service.JsUndefined).

Definition glassBank : RecyclingPoint :=
  RecyclingPoint.mk "p1" "Glass bank" "glass" 10%float 20%float "By the square".

Definition paperBin : RecyclingPoint :=
  RecyclingPoint.mk "p2" "Paper bin" "paper" 60%float 70%float "".

(** The page once two points are loaded, every category shown, nothing
    selected. *)
Definition idlePage : State :=
  {| allPoints := [glassBank; paperBin];
     selectedCategories := map Category.id INITIAL_CATEGORIES;
     selectedPoint := None;
     isClient := true;
     editingPointId := None;
     isSelectingLocation := false;
     isAddingNewPointMode := false;
     categoryForNewPoint := "";
     isLoading := false;
     error := None;
     currentUserLocationMarker := None |}.

(** The glass bank is open in the dialog, read-only. *)
Definition viewingGlassBank : State :=
  after (setSelectedPoint (Some glassBank)) idlePage.

(** The glass bank is being edited. *)
Definition editingGlassBank : State :=
  after (setEditingPointId (Some "p1")) viewingGlassBank.

(** A new location is being picked for the glass bank. *)
Definition relocatingGlassBank : State :=
  after (setIsSelectingLocation true) editingGlassBank.

(** A new glass point is about to be placed. *)
Definition addingGlassPoint : State :=
  after (setCategoryForNewPoint "glass" ;; setIsAddingNewPointMode true) idlePage.

(** A backend whose every Firestore call fails. *)
Definition firestoreDown : Backend :=
  {| db := true;
     getRecyclingPoints := Rejected "unavailable";
     addDoc := Rejected "unavailable";
     updateDoc := Rejected "unavailable";
     deleteDoc := Rejected "unavailable" |}.

(** A backend whose every Firestore call succeeds; a new document gets the
    id "p3". *)
Definition firestoreUp : Backend :=
  {| db := true;
     getRecyclingPoints := Fulfilled [glassBank; paperBin];
     addDoc := Fulfilled "p3";
     updateDoc := Fulfilled tt;
     deleteDoc := Fulfilled tt |}.

(** A sequence of filter checkbox changes. *)
Definition applyToggles (toggles : list (RecyclingCategoryEnum * bool)) (s : State) : State :=
  fold_left (fun st t => after (handleCategoryChange (fst t) (snd t)) st) toggles s.

(** A click on the bare map whose container has its corner at (234, 237). *)
Definition clickAt (clientX clientY : float) : RecyclingMap.MouseEvent :=
  RecyclingMap.mkClick true false (Some (234%float, 237%float)) clientX clientY.

(** ** The invariant of the placement flags *)

(** Add-point mode and location picking exclude each other; a location is
    only picked for a point being edited; add-point mode has a category. *)
Definition placementInvariant (s : State) : Prop :=
  (isAddingNewPointMode s = true -> isSelectingLocation s = false)
  /\ (isSelectingLocation s = true -> truthyId (editingPointId s) = true)
  /\ (isAddingNewPointMode s = true -> truthy (categoryForNewPoint s) = true).

(** A pending call keeps the invariant whenever and however it settles. *)
Definition preserving (pending : Async) : Prop :=
  forall b s, backendOk b = true -> placementInvariant s ->
              placementInvariant (after (settle b pending) s).

Definition appInvariant (a : App) : Prop :=
  placementInvariant (home a) /\ Forall preserving (inflight a).

(** The page loaded, the glass bank opened, edited, and its relocation
    started. *)
Definition relocatingInputs : list Input :=
  [ Settles 0 firestoreUp; User (MarkerClick 0); User DialogEditClick;
    User DialogChangeLocation ].

(** The page loaded, glass chosen for a new point, placement started. *)
Definition addingInputs : list Input :=
  [ Settles 0 firestoreUp; User (NewPointCategorySelect "glass"); User AddPointClick ].

(** ** Floats *)

(** A float that is neither NaN nor infinite, on its specification. *)
Definition is_number (p : spec_float) : Prop :=
  match p with
  | S754_zero _ | S754_finite _ _ _ => True
  | _ => False
  end.

(** ** The [PointMarker] component: icon size *)

Module PointMarker.

Definition baseTargetScreenSize : float := 18%float.

(** [intrinsicIconSize] for a map drawn at [scale]. *)
Definition intrinsicIconSize (scale : float) : float :=
  let intrinsicIconSize := (baseTargetScreenSize / scale)%float in
  Math.max 10%float (Math.min 60%float intrinsicIconSize).

End PointMarker.

(** ** The [RecyclingMap] component: cursor, centring, location marker *)

Module MapView.

(** [getCursorStyle] *)
Definition getCursorStyle (props : State) (isPanning : bool) : string :=
  if isAddingNewPointMode props
     || (truthyId (editingPointId props) && isSelectingLocation props)
  then "cursor-crosshair"
  else if isPanning then "cursor-grabbing"
  else "cursor-grab".

(** [centerMap]: the scroll offsets it assigns, given the viewport's
    [offsetWidth] and [offsetHeight] when [viewportRef.current] is set. *)
Definition centerMap (viewport : option (float * float)) (currentScale : float)
    : option (float * float) :=
  match viewport with
  | None => None
  | Some (viewportWidth, viewportHeight) =>
      let scaledImageWidth := (RecyclingMap.imageWidth * currentScale)%float in
      let scaledImageHeight := (RecyclingMap.imageHeight * currentScale)%float in
      let scrollLeft := ((scaledImageWidth - viewportWidth) / 2)%float in
      let scrollTop := ((scaledImageHeight - viewportHeight) / 2)%float in
      Some (Math.max 0%float scrollLeft, Math.max 0%float scrollTop)
  end.

Definition baseLocationMarkerSize : float := 24%float.

Definition intrinsicLocationMarkerSize (currentScale : float) : float :=
  let intrinsicLocationMarkerSize := (baseLocationMarkerSize / currentScale)%float in
  Math.max 12%float (Math.min 50%float intrinsicLocationMarkerSize).

End MapView.

(** ** Further invariants *)

(** The zoom factors that zooming in, zooming out and resetting produce,
    starting from 1. *)
Definition zoomLevels : list float :=
  [ 1%float; 1.2%float; 0.80000000000000004%float; 1.3999999999999999%float;
    0.60000000000000009%float; 1.5999999999999999%float; 0.5%float;
    1.7999999999999998%float; 0.69999999999999996%float;
    1.9999999999999998%float; 0.89999999999999991%float;
    2.1999999999999997%float; 1.0999999999999999%float;
    2.3999999999999999%float; 1.2999999999999998%float;
    2.6000000000000001%float; 1.4999999999999998%float;
    2.8000000000000003%float; 1.6999999999999997%float; 3%float;
    1.8999999999999997%float; 2.7999999999999998%float;
    2.0999999999999996%float; 2.5999999999999996%float;
    2.2999999999999998%float; 2.3999999999999995%float; 2.5%float;
    2.1999999999999993%float; 2.7000000000000002%float;
    1.9999999999999993%float; 2.9000000000000004%float;
    1.7999999999999994%float; 1.5999999999999994%float;
    1.3999999999999995%float; 1.1999999999999995%float;
    0.99999999999999956%float; 0.7999999999999996%float;
    0.59999999999999964%float ].

(** The ids of the category registry. *)
Definition categoryIds : list RecyclingCategoryEnum := map Category.id categories.

(** Only registry categories are ever selected for filtering, and the
    category pending for a new point is a registry category or none. *)
Definition registryInvariant (s : State) : Prop :=
  (categoryForNewPoint s = "" \/ In (categoryForNewPoint s) categoryIds)
  /\ (forall c, In c (selectedCategories s) -> In c categoryIds).

(** An action that leaves the filter selection alone and, at most, empties
    the pending category. *)
Definition sparesRegistry (act : Action) : Prop :=
  forall s,
    selectedCategories (after act s) = selectedCategories s
    /\ (categoryForNewPoint (after act s) = categoryForNewPoint s
        \/ categoryForNewPoint (after act s) = "").

(** A pending call keeps [I] whenever and however it settles. *)
Definition keeps (I : State -> Prop) (pending : Async) : Prop :=
  forall b s, backendOk b = true -> I s -> I (after (settle b pending) s).

(** A finite float within [lo, hi]. *)
Definition within (lo hi v : float) : Prop :=
  (lo <=? v)%float = true /\ (v <=? hi)%float = true.

(** Whether a click carries finite coordinates over a map container with a
    finite corner. *)
Definition finiteClick (e : RecyclingMap.MouseEvent) : Prop :=
  PrimFloat.is_finite (RecyclingMap.clientX e) = true
  /\ PrimFloat.is_finite (RecyclingMap.clientY e) = true
  /\ match RecyclingMap.mapContainer_rect e with
     | Some (rect_left, rect_top) =>
         PrimFloat.is_finite rect_left = true /\ PrimFloat.is_finite rect_top = true
     | None => True
     end.

(** The coordinates a store call carries lie in [0, 100]. *)
Definition callInRange (call : StoreCall) : Prop :=
  match call with
  | CallAdd pointData =>
      within 0%float 100%float (PointData.x pointData)
      /\ within 0%float 100%float (PointData.y pointData)
  | CallUpdate _ updates =>
      (forall v, Updates.x updates = Some v -> within 0%float 100%float v)
      /\ (forall v, Updates.y updates = Some v -> within 0%float 100%float v)
  | _ => True
  end.

(** The page loaded and the glass bank being edited. *)
Definition editingInputs : list Input :=
  [ Settles 0 firestoreUp; User (MarkerClick 0); User DialogEditClick ].

(** The page loaded, then zoomed in ten times. *)
Definition zoomedInputs : list Input :=
  Settles 0 firestoreUp :: repeat (User ZoomInClick) 10.

(** ** The [RecyclingMap] component: panning *)

Module MapPan.

(** The five panning cells of the map. *)
Record Pan : Type := mkPan {
  isPanning : bool;
  panStartX : float;
  panStartY : float;
  scrollStartX : float;
  scrollStartY : float
}.

Definition initialPan : Pan := mkPan false 0%float 0%float 0%float 0%float.

(** [handleMouseDown]: [viewport] is the viewport's current
    [(scrollLeft, scrollTop)] when [viewportRef.current] is set. *)
Definition handleMouseDown (props : State) (viewport : option (float * float))
    (clientX clientY : float) (pan : Pan) : Pan :=
  match viewport with
  | None => pan
  | Some (scrollLeft, scrollTop) =>
      if isSelectingLocation props || isAddingNewPointMode props then pan
      else mkPan true clientX clientY scrollLeft scrollTop
  end.

(** [handleMouseMove]: the [(scrollLeft, scrollTop)] it assigns to the
    viewport, if it assigns any. *)
Definition handleMouseMove (props : State) (viewportRef_current : bool)
    (clientX clientY : float) (pan : Pan) : option (float * float) :=
  if negb (isPanning pan) || negb viewportRef_current
     || isSelectingLocation props || isAddingNewPointMode props
  then None
  else
    let dx := (clientX - panStartX pan)%float in
    let dy := (clientY - panStartY pan)%float in
    Some ((scrollStartX pan - dx)%float, (scrollStartY pan - dy)%float).

Definition handleMouseUpOrLeave (pan : Pan) : Pan :=
  mkPan false (panStartX pan) (panStartY pan) (scrollStartX pan) (scrollStartY pan).

End MapPan.

(** ** The [CategoryFilter] component *)

Module CategoryFilter.

(** The [checked] prop of the checkbox of [categoryId]. *)
Definition checked (selectedCategories : list RecyclingCategoryEnum)
    (categoryId : RecyclingCategoryEnum) : bool :=
  includes selectedCategories categoryId.

(** A click on the checkbox of [categoryId]: the checkbox reports the state
    opposite to the one it shows, and [onCategoryChange] is the page's
    [handleCategoryChange]. *)
Definition click (s : State) (categoryId : RecyclingCategoryEnum) : Action :=
  handleCategoryChange categoryId (negb (checked (selectedCategories s) categoryId)).

End CategoryFilter.

(** * Properties *)

(** ** Lists of points *)

Lemma findPoint_some (points : list RecyclingPoint) (pointId : string) (p : RecyclingPoint) :
  findPoint points pointId = Some p -> In p points /\ RecyclingPoint.id p = pointId.
Proof.
  unfold findPoint. intros H. apply find_some in H as [Hin Heq].
  apply String.eqb_eq in Heq. auto.
Qed.

Lemma findPoint_none (points : list RecyclingPoint) (pointId : string) :
  findPoint points pointId = None <->
  (forall p, In p points -> RecyclingPoint.id p <> pointId).
Proof.
  unfold findPoint. split.
  - intros H p Hin Heq. pose proof (find_none _ _ H p Hin) as Hn. cbv beta in Hn.
    rewrite Heq, String.eqb_refl in Hn. discriminate.
  - intros H. induction points as [|q rest IH]; [reflexivity|]. simpl.
    destruct (String.eqb (RecyclingPoint.id q) pointId) eqn:E.
    + apply String.eqb_eq in E. exfalso. apply (H q); simpl; auto.
    + apply IH. intros p Hin. apply H. simpl. auto.
Qed.

Lemma findPoint_present (points : list RecyclingPoint) (p : RecyclingPoint) :
  In p points ->
  exists q, findPoint points (RecyclingPoint.id p) = Some q.
Proof.
  intros Hin. destruct (findPoint points (RecyclingPoint.id p)) as [q|] eqn:E.
  - eauto.
  - exfalso. rewrite findPoint_none in E. exact (E p Hin eq_refl).
Qed.

Lemma includes_In (arr : list string) (v : string) :
  includes arr v = true <-> In v arr.
Proof.
  unfold includes. rewrite existsb_exists. split.
  - intros [e [Hin He]]. apply String.eqb_eq in He. subst. exact Hin.
  - intros Hin. exists v. split; [exact Hin | apply String.eqb_refl].
Qed.

(** ** The service *)

(** C10.  Whatever fetch-all returns is the stored documents mapped one by
    one, in order: the id is the document's id; a falsy (hence also a missing)
    stored name reads "Unnamed Point", a falsy or missing category "unknown",
    a falsy or missing description the empty string, while truthy values are
    kept; an x or y that is not a number reads 0, and a number is returned as
    it is stored, whatever its size. *)
Theorem fetch_all_normalizes (db : bool)
    (getDocs : Settled (list Service.QueryDocumentSnapshot))
    (points : list Service.MappedPoint) :
  Service.getRecyclingPointsFromDB db getDocs = Fulfilled points ->
  exists docs,
    getDocs = Fulfilled docs /\
    Forall2 (fun doc p =>
      let data := Service.snap_data doc in
      Service.id p = Service.snap_id doc
      /\ (Service.toBoolean (Service.data_name data) = false ->
          Service.name p = Service.JsString "Unnamed Point")
      /\ (Service.toBoolean (Service.data_name data) = true ->
          Service.name p = Service.data_name data)
      /\ (Service.toBoolean (Service.data_category data) = false ->
          Service.category p = Service.JsString "unknown")
      /\ (Service.toBoolean (Service.data_category data) = true ->
          Service.category p = Service.data_category data)
      /\ (Service.toBoolean (Service.data_description data) = false ->
          Service.description p = Service.JsString "")
      /\ (Service.toBoolean (Service.data_description data) = true ->
          Service.description p = Service.data_description data)
      /\ ((forall n, Service.data_x data <> Service.JsNumber n) -> Service.x p = 0%float)
      /\ ((forall n, Service.data_y data <> Service.JsNumber n) -> Service.y p = 0%float)
      /\ (forall n, Service.data_x data = Service.JsNumber n -> Service.x p = n)
      /\ (forall n, Service.data_y data = Service.JsNumber n -> Service.y p = n))
      docs points.
Proof.
  unfold Service.getRecyclingPointsFromDB.
  destruct db; simpl; [|discriminate].
  destruct getDocs as [docs|m]; [|discriminate].
  intros H. injection H as <-. exists docs. split; [reflexivity|].
  induction docs as [|doc rest IH]; simpl; constructor; [|exact IH].
  unfold Service.mapDocToRecyclingPoint, Service.or. simpl.
  repeat split.
  - intros ->. reflexivity.
  - intros ->. reflexivity.
  - intros ->. reflexivity.
  - intros ->. reflexivity.
  - intros ->. reflexivity.
  - intros ->. reflexivity.
  - intros Hx. destruct (Service.data_x (Service.snap_data doc)); try reflexivity.
    exfalso. exact (Hx n eq_refl).
  - intros Hy. destruct (Service.data_y (Service.snap_data doc)); try reflexivity.
    exfalso. exact (Hy n eq_refl).
  - intros n ->. reflexivity.
  - intros n ->. reflexivity.
Qed.

(** A document with no name, category or description, a textual x and an
    out-of-range y: fetched, it reads with the defaults, x = 0 and y = 250. *)
Lemma fetch_all_normalizes_witness :
  exists docs,
    Fulfilled [strayDoc] = Fulfilled docs /\
    Forall2 (fun doc p =>
      let data := Service.snap_data doc in
      Service.id p = Service.snap_id doc
      /\ (Service.toBoolean (Service.data_name data) = false ->
          Service.name p = Service.JsString "Unnamed Point")
      /\ (Service.toBoolean (Service.data_name data) = true ->
          Service.name p = Service.data_name data)
      /\ (Service.toBoolean (Service.data_category data) = false ->
          Service.category p = Service.JsString "unknown")
      /\ (Service.toBoolean (Service.data_category data) = true ->
          Service.category p = Service.data_category data)
      /\ (Service.toBoolean (Service.data_description data) = false ->
          Service.description p = Service.JsString "")
      /\ (Service.toBoolean (Service.data_description data) = true ->
          Service.description p = Service.data_description data)
      /\ ((forall n, Service.data_x data <> Service.JsNumber n) -> Service.x p = 0%float)
      /\ ((forall n, Service.data_y data <> Service.JsNumber n) -> Service.y p = 0%float)
      /\ (forall n, Service.data_x data = Service.JsNumber n -> Service.x p = n)
      /\ (forall n, Service.data_y data = Service.JsNumber n -> Service.y p = n))
      docs
      [Service.mkMapped "doc1" (Service.JsString "Unnamed Point") (Service.JsString "unknown")
         0%float 250%float (Service.JsString "")].
Proof.
  apply (fetch_all_normalizes true (Fulfilled [strayDoc])).
  reflexivity.
Defined.

(** ** Unfolding handlers *)

Ltac unfold_actions :=
  unfold run, settle, after, toasts, andThen, skip, toast, handleCloseDialog,
    setAllPoints, setSelectedCategories, updateAllPoints, updateSelectedCategories,
    setSelectedPoint, setIsClient, setEditingPointId, setIsSelectingLocation,
    setIsAddingNewPointMode, setCategoryForNewPoint, setIsLoading, setError,
    setCurrentUserLocationMarker in *.

(** ** The category filter *)

Lemma filteredPoints_filter (s : State) :
  filteredPoints s =
  filter (fun point => includes (selectedCategories s) (RecyclingPoint.category point))
    (allPoints s).
Proof.
  unfold filteredPoints. destruct (selectedCategories s) as [|c rest] eqn:E; simpl.
  - induction (allPoints s) as [|p ps IH]; simpl; auto.
  - reflexivity.
Qed.

Lemma applyToggles_allPoints (toggles : list (RecyclingCategoryEnum * bool)) (s : State) :
  allPoints (applyToggles toggles s) = allPoints s.
Proof.
  unfold applyToggles. revert s.
  induction toggles as [|t rest IH]; intros s; simpl; [reflexivity|].
  rewrite IH. reflexivity.
Qed.

(** What one checkbox change does to membership in the selection. *)
Lemma handleCategoryChange_membership (s : State) (categoryId c : RecyclingCategoryEnum)
    (checked : bool) :
  In c (selectedCategories (after (handleCategoryChange categoryId checked) s)) <->
  (if checked then In c (selectedCategories s) \/ c = categoryId
   else In c (selectedCategories s) /\ c <> categoryId).
Proof.
  unfold handleCategoryChange. unfold_actions. simpl. destruct checked.
  - rewrite in_app_iff. simpl. intuition.
  - rewrite filter_In. rewrite negb_true_iff, String.eqb_neq. reflexivity.
Qed.

(** C6.  After any sequence of filter toggles, from any state, the visible
    points are exactly the points of the (unchanged) local list whose category
    is in the selection, in list order; with an empty selection nothing is
    visible. *)
Theorem visible_points_are_selected_categories
    (s : State) (toggles : list (RecyclingCategoryEnum * bool)) :
  let s' := applyToggles toggles s in
  allPoints s' = allPoints s
  /\ filteredPoints s' =
     filter (fun point => includes (selectedCategories s') (RecyclingPoint.category point))
       (allPoints s)
  /\ (forall p, In p (filteredPoints s') <->
                In p (allPoints s) /\ In (RecyclingPoint.category p) (selectedCategories s'))
  /\ (selectedCategories s' = [] -> filteredPoints s' = []).
Proof.
  intros s'. pose proof (applyToggles_allPoints toggles s) as Hall. fold s' in Hall.
  split; [exact Hall|]. split; [|split].
  - rewrite filteredPoints_filter, Hall. reflexivity.
  - intros p. rewrite filteredPoints_filter, filter_In, includes_In, Hall. reflexivity.
  - intros Hempty. unfold filteredPoints. rewrite Hempty. reflexivity.
Qed.

(** Unticking all six boxes of the loaded page leaves no point visible. *)
Lemma visible_points_are_selected_categories_witness :
  filteredPoints
    (applyToggles [("plastic", false); ("paper", false); ("electronics", false);
                   ("glass", false); ("metal", false); ("organic", false)] idlePage) = [].
Proof.
  apply (visible_points_are_selected_categories idlePage).
  reflexivity.
Defined.

(** ** Deleting *)

(** C7.  Deleting a point that is in the local list issues one delete to the
    store.  If it succeeds, every entry with that id leaves the list and the
    dialog closes: no selected point, no edited point, no location picking.
    If it fails, the whole state is as before. *)
Theorem delete_waits_for_the_store (s : State) (b : Backend) (p : RecyclingPoint) :
  In p (allPoints s) ->
  let pointId := RecyclingPoint.id p in
  let s' := fst (run b (fun snap => handleDeletePoint snap pointId) s) in
  storeCalls (handleDeletePoint s pointId) = [CallDelete pointId]
  /\ (Service.deleteRecyclingPointFromDB (db b) pointId (deleteDoc b) = Fulfilled tt ->
      allPoints s' =
        filter (fun q => negb (String.eqb (RecyclingPoint.id q) pointId)) (allPoints s)
      /\ (forall q, In q (allPoints s') -> RecyclingPoint.id q <> pointId)
      /\ selectedPoint s' = None
      /\ editingPointId s' = None
      /\ isSelectingLocation s' = false
      /\ dialogOpen s' = false)
  /\ (forall message,
      Service.deleteRecyclingPointFromDB (db b) pointId (deleteDoc b) = Rejected message ->
      s' = s).
Proof.
  intros Hin pointId s'. subst s'.
  destruct (findPoint_present _ _ Hin) as [q Hq]. fold pointId in Hq.
  unfold run, handleDeletePoint. rewrite Hq. simpl.
  split; [reflexivity|]. split.
  - intros ->. unfold_actions. simpl. repeat split.
    intros r Hr. apply filter_In in Hr as [_ Hr].
    rewrite negb_true_iff in Hr. apply String.eqb_neq in Hr. exact Hr.
  - intros message ->. unfold_actions. simpl. destruct s; reflexivity.
Qed.

(** Deleting the glass bank while it is being edited, the store refusing:
    the page is as it was. *)
Lemma delete_waits_for_the_store_witness :
  fst (run firestoreDown (fun snap => handleDeletePoint snap "p1") editingGlassBank)
  = editingGlassBank.
Proof.
  apply (delete_waits_for_the_store editingGlassBank firestoreDown glassBank
           (or_introl eq_refl))
    with (message := "SERVICE_ERROR (deleteRecyclingPointFromDB for point p1): Firestore operation failed. Original error: unavailable").
  reflexivity.
Defined.

(** ** Unknown ids *)

(** C9.  Each of the five per-point handlers, called with an id that no
    point of the local list carries, awaits nothing: no store call, no toast,
    and the state is the same in every cell. *)
Theorem absent_id_is_ignored (s : State) (b : Backend) (pointId : string)
    (newX newY : float) (newCategoryId : RecyclingCategoryEnum)
    (newName newDescription : string) :
  (forall p, In p (allPoints s) -> RecyclingPoint.id p <> pointId) ->
  (storeCalls (handlePointCoordinateChange s pointId newX newY) = []
   /\ run b (fun snap => handlePointCoordinateChange snap pointId newX newY) s = (s, []))
  /\ (storeCalls (handlePointCategoryChange s pointId newCategoryId) = []
   /\ run b (fun snap => handlePointCategoryChange snap pointId newCategoryId) s = (s, []))
  /\ (storeCalls (handlePointNameChange s pointId newName) = []
   /\ run b (fun snap => handlePointNameChange snap pointId newName) s = (s, []))
  /\ (storeCalls (handlePointDescriptionChange s pointId newDescription) = []
   /\ run b (fun snap => handlePointDescriptionChange snap pointId newDescription) s = (s, []))
  /\ (storeCalls (handleDeletePoint s pointId) = []
   /\ run b (fun snap => handleDeletePoint snap pointId) s = (s, [])).
Proof.
  intros Habsent. apply findPoint_none in Habsent.
  unfold run, handlePointCoordinateChange, handlePointCategoryChange,
    handlePointNameChange, handlePointDescriptionChange, handleDeletePoint.
  rewrite Habsent. simpl. unfold skip. repeat split.
Qed.

(** No point of the loaded page has the id "p9". *)
Lemma absent_id_is_ignored_witness :
  storeCalls (handleDeletePoint editingGlassBank "p9") = []
  /\ run firestoreUp (fun snap => handleDeletePoint snap "p9") editingGlassBank
     = (editingGlassBank, []).
Proof.
  apply (absent_id_is_ignored editingGlassBank firestoreUp "p9" 1%float 2%float "paper" "n" "d").
  intros p [<-|[<-|[]]]; discriminate.
Defined.

(** ** Field edits and failed updates *)

(** C3 as stated does not hold.  The glass bank is in the local list and
    is renamed "Bottle bank" while every Firestore call is rejected: the
    local list does not hold the edited name afterwards; it holds the old
    one. *)
Lemma failed_rename_is_not_kept :
  let s' :=
    fst (run firestoreDown (fun snap => handlePointNameChange snap "p1" "Bottle bank")
           editingGlassBank) in
  findPoint (allPoints editingGlassBank) "p1" = Some glassBank
  /\ storeCalls (handlePointNameChange editingGlassBank "p1" "Bottle bank")
     = [CallUpdate "p1" (Updates.mk (Some "Bottle bank") None None None None)]
  /\ (exists message,
       Service.updateRecyclingPointInDB (db firestoreDown) "p1"
         (Updates.mk (Some "Bottle bank") None None None None) (updateDoc firestoreDown)
       = Rejected message)
  /\ ~ (exists q, findPoint (allPoints s') "p1" = Some q
                  /\ RecyclingPoint.name q = "Bottle bank")
  /\ findPoint (allPoints s') "p1" = Some glassBank.
Proof.
  cbv zeta. split; [reflexivity|]. split; [reflexivity|]. split; [eexists; reflexivity|].
  split; [|reflexivity].
  intros [q [Hq Hname]]. vm_compute in Hq. injection Hq as <-. discriminate Hname.
Qed.

(** C3, amended.  A name, category or description edit of a point in the
    local list changes local state only once the store update has succeeded:
    then every entry with that id is replaced by the first such entry with the
    field edited.  When the update fails the state is as before, so the list
    and the dialog still hold the old value.  A failed coordinate change
    likewise leaves the list as it was, and puts the original point in the
    dialog, in edit mode, with location picking off. *)
Theorem field_edits_wait_for_the_store (s : State) (b : Backend) (pointId : string)
    (pointToUpdate : RecyclingPoint) (newName newDescription : string)
    (newCategoryId : RecyclingCategoryEnum) (newX newY : float) :
  findPoint (allPoints s) pointId = Some pointToUpdate ->
  let store := Service.updateRecyclingPointInDB (db b) pointId in
  let renamed := fst (run b (fun snap => handlePointNameChange snap pointId newName) s) in
  let recategorised :=
    fst (run b (fun snap => handlePointCategoryChange snap pointId newCategoryId) s) in
  let redescribed :=
    fst (run b (fun snap => handlePointDescriptionChange snap pointId newDescription) s) in
  let moved :=
    fst (run b (fun snap => handlePointCoordinateChange snap pointId newX newY) s) in
  (forall message,
      store (Updates.mk (Some newName) None None None None) (updateDoc b) = Rejected message ->
      renamed = s)
  /\ (forall message,
      store (Updates.mk None (Some newCategoryId) None None None) (updateDoc b)
        = Rejected message ->
      recategorised = s)
  /\ (forall message,
      store (Updates.mk None None None None (Some newDescription)) (updateDoc b)
        = Rejected message ->
      redescribed = s)
  /\ (forall message,
      store (Updates.mk None None (Some newX) (Some newY) None) (updateDoc b)
        = Rejected message ->
      allPoints moved = allPoints s
      /\ selectedPoint moved = Some pointToUpdate
      /\ editingPointId moved = Some pointId
      /\ isSelectingLocation moved = false
      /\ isAddingNewPointMode moved = isAddingNewPointMode s)
  /\ (store (Updates.mk (Some newName) None None None None) (updateDoc b) = Fulfilled tt ->
      allPoints renamed =
        replacePoint pointId
          (RecyclingPoint.mk (RecyclingPoint.id pointToUpdate) newName
             (RecyclingPoint.category pointToUpdate) (RecyclingPoint.x pointToUpdate)
             (RecyclingPoint.y pointToUpdate) (RecyclingPoint.description pointToUpdate))
          (allPoints s))
  /\ (store (Updates.mk None (Some newCategoryId) None None None) (updateDoc b)
        = Fulfilled tt ->
      allPoints recategorised =
        replacePoint pointId
          (RecyclingPoint.mk (RecyclingPoint.id pointToUpdate)
             (RecyclingPoint.name pointToUpdate) newCategoryId
             (RecyclingPoint.x pointToUpdate) (RecyclingPoint.y pointToUpdate)
             (RecyclingPoint.description pointToUpdate))
          (allPoints s))
  /\ (store (Updates.mk None None None None (Some newDescription)) (updateDoc b)
        = Fulfilled tt ->
      allPoints redescribed =
        replacePoint pointId
          (RecyclingPoint.mk (RecyclingPoint.id pointToUpdate)
             (RecyclingPoint.name pointToUpdate) (RecyclingPoint.category pointToUpdate)
             (RecyclingPoint.x pointToUpdate) (RecyclingPoint.y pointToUpdate) newDescription)
          (allPoints s)).
Proof.
  intros Hfind store renamed recategorised redescribed moved.
  subst store renamed recategorised redescribed moved.
  unfold run, handlePointNameChange, handlePointCategoryChange,
    handlePointDescriptionChange, handlePointCoordinateChange.
  rewrite Hfind. cbn [settle].
  repeat match goal with |- _ /\ _ => split end.
  - intros message ->. unfold_actions. destruct s; reflexivity.
  - intros message ->. unfold_actions. destruct s; reflexivity.
  - intros message ->. unfold_actions. destruct s; reflexivity.
  - intros message ->. unfold_actions. simpl. repeat split.
  - intros ->. unfold_actions. simpl. destruct (isSelected s pointId); reflexivity.
  - intros ->. unfold_actions. simpl. destruct (isSelected s pointId); reflexivity.
  - intros ->. unfold_actions. simpl. destruct (isSelected s pointId); reflexivity.
Qed.

(** Renaming the glass bank with the store down changes nothing. *)
Lemma field_edits_wait_for_the_store_witness :
  fst (run firestoreDown (fun snap => handlePointNameChange snap "p1" "Bottle bank")
         editingGlassBank) = editingGlassBank.
Proof.
  refine (proj1 (field_edits_wait_for_the_store editingGlassBank firestoreDown "p1"
                   glassBank "Bottle bank" "d" "paper" 1%float 2%float eq_refl)
            "SERVICE_ERROR (updateRecyclingPointInDB for point p1): Firestore operation failed. Original error: unavailable"
            eq_refl).
Defined.

(** ** Floating-point facts for the coordinate transform *)

(** Rounding a non-negative mantissa never yields NaN, so neither do
    subtraction of numbers, nor division or multiplication by a finite
    non-zero float. *)
Section SpecRounding.

Variables prec emax : Z.

Lemma shr_1_nonneg (mrs : shr_record) : (0 <= shr_m mrs)%Z -> (0 <= shr_m (shr_1 mrs))%Z.
Proof.
  destruct mrs as [m r s]. destruct m as [|[p|p|]|[p|p|]]; simpl; lia.
Qed.

Lemma iter_pos_keeps {A : Type} (P : A -> Prop) (f : A -> A) :
  (forall v, P v -> P (f v)) -> forall n v, P v -> P (iter_pos f n v).
Proof.
  intros Hf. induction n as [n IH|n IH|]; simpl; intros v Hv; auto.
Qed.

Lemma shr_fexp_nonneg (m e : Z) (l : location) :
  (0 <= m)%Z -> (0 <= shr_m (fst (shr_fexp prec emax m e l)))%Z.
Proof.
  intros Hm. unfold shr_fexp, shr.
  assert (H0 : (0 <= shr_m (shr_record_of_loc m l))%Z) by (destruct l as [|[]]; exact Hm).
  destruct (fexp prec emax (Zdigits2 m + e) - e)%Z; simpl; auto.
  apply (iter_pos_keeps (fun r => (0 <= shr_m r)%Z)); [apply shr_1_nonneg | exact H0].
Qed.

Lemma round_nearest_even_nonneg (mx : Z) (lx : location) :
  (0 <= mx)%Z -> (0 <= round_nearest_even mx lx)%Z.
Proof.
  intros H. destruct lx as [|[]]; simpl; try lia. destruct (Z.even mx); lia.
Qed.

Lemma binary_round_aux_not_nan (sx : bool) (mx ex : Z) (lx : location) :
  (0 <= mx)%Z -> binary_round_aux prec emax sx mx ex lx <> S754_nan.
Proof.
  intros Hm. unfold binary_round_aux.
  pose proof (shr_fexp_nonneg mx ex lx Hm) as H1.
  destruct (shr_fexp prec emax mx ex lx) as [mrs' e']. simpl in H1.
  pose proof (shr_fexp_nonneg _ e' loc_Exact
                (round_nearest_even_nonneg _ (loc_of_shr_record mrs') H1)) as H2.
  destruct (shr_fexp prec emax _ e' loc_Exact) as [mrs'' e'']. simpl in H2.
  destruct (shr_m mrs'') as [|m|m]; try discriminate; [|lia].
  destruct (Z.leb e'' (emax - prec)); discriminate.
Qed.

Lemma binary_normalize_not_nan (m e : Z) (szero : bool) :
  binary_normalize prec emax m e szero <> S754_nan.
Proof.
  unfold binary_normalize, binary_round. destruct m as [|m|m]; try discriminate.
  - destruct (shl_align _ _ _). apply binary_round_aux_not_nan. lia.
  - destruct (shl_align _ _ _). apply binary_round_aux_not_nan. lia.
Qed.

Lemma SFsub_not_nan (p q : spec_float) :
  is_number p -> is_number q -> SFsub prec emax p q <> S754_nan.
Proof.
  destruct p as [[]|[]| |sp mp ep], q as [[]|[]| |sq mq eq]; simpl;
    try contradiction; try discriminate; intros _ _.
  apply binary_normalize_not_nan.
Qed.

Lemma SFdiv_not_nan (p : spec_float) (sq : bool) (mq : positive) (eq : Z) :
  p <> S754_nan -> SFdiv prec emax p (S754_finite sq mq eq) <> S754_nan.
Proof.
  destruct p as [sp|sp| |sp mp ep]; simpl; try discriminate; try congruence. intros _.
  unfold SFdiv_core_binary.
  set (m' := match _ with Z0 => Zpos mp | Zpos _ => Z.shiftl (Zpos mp) _ | Zneg _ => Z0 end).
  assert (Hm' : (0 <= m')%Z).
  { subst m'. destruct (_ - _ - _)%Z; try lia. apply Z.shiftl_nonneg. lia. }
  pose proof (Z_div_mod m' (Zpos mq) eq_refl) as Hdiv.
  destruct (Z.div_eucl m' (Zpos mq)) as [q r].
  apply binary_round_aux_not_nan. nia.
Qed.

Lemma SFmul_not_nan (p : spec_float) (sq : bool) (mq : positive) (eq : Z) :
  p <> S754_nan -> SFmul prec emax p (S754_finite sq mq eq) <> S754_nan.
Proof.
  destruct p as [sp|sp| |sp mp ep]; simpl; try discriminate; try congruence. intros _.
  apply binary_round_aux_not_nan. lia.
Qed.

End SpecRounding.

Section FloatFacts.

Local Open Scope float_scope.

Lemma not_nan_spec (v : float) : PrimFloat.is_nan v = false -> Prim2SF v <> S754_nan.
Proof.
  unfold PrimFloat.is_nan. rewrite FloatAxioms.eqb_spec. intros H E.
  rewrite E in H. discriminate H.
Qed.

Lemma SFcompare_refl (p : spec_float) : p <> S754_nan -> SFcompare p p = Some Eq.
Proof.
  destruct p as [[]|[]| |[] m e]; simpl; try congruence; intros _;
    rewrite Z.compare_refl, Pos.compare_cont_refl; reflexivity.
Qed.

Lemma spec_not_nan (v : float) : Prim2SF v <> S754_nan -> PrimFloat.is_nan v = false.
Proof.
  intros H. unfold PrimFloat.is_nan. rewrite FloatAxioms.eqb_spec. unfold SFeqb.
  rewrite (SFcompare_refl _ H). reflexivity.
Qed.

Lemma ltb_not_nan (a b : float) :
  (a <? b) = true -> PrimFloat.is_nan a = false /\ PrimFloat.is_nan b = false.
Proof.
  rewrite ltb_spec. unfold SFltb. intros H.
  split; apply spec_not_nan; intros E; rewrite E in H;
    destruct (Prim2SF a), (Prim2SF b); discriminate.
Qed.

Lemma SFcompare_swap (p q : spec_float) :
  SFcompare q p = option_map CompOpp (SFcompare p q).
Proof.
  destruct p as [[]|[]| |[] mp ep], q as [[]|[]| |[] mq eq]; simpl; try reflexivity;
    rewrite (Z.compare_antisym ep eq);
    destruct (ep ?= eq)%Z; simpl; try reflexivity;
    rewrite (Pos.compare_cont_antisym mp mq Eq); simpl;
    destruct (Pos.compare_cont Eq mp mq); reflexivity.
Qed.

Lemma ltb_leb (a b : float) : (a <? b) = true -> (a <=? b) = true.
Proof.
  rewrite ltb_spec, leb_spec. unfold SFltb, SFleb.
  destruct (SFcompare _ _) as [[]|]; congruence.
Qed.

Lemma not_ltb_leb (a b : float) :
  PrimFloat.is_nan a = false -> PrimFloat.is_nan b = false ->
  (a <? b) = false -> (b <=? a) = true.
Proof.
  intros Ha Hb. apply not_nan_spec in Ha, Hb.
  rewrite ltb_spec, leb_spec. unfold SFltb, SFleb.
  rewrite (SFcompare_swap (Prim2SF a) (Prim2SF b)).
  destruct (SFcompare (Prim2SF a) (Prim2SF b)) as [[]|] eqn:E; simpl; try congruence.
  exfalso. destruct (Prim2SF a), (Prim2SF b); simpl in E; try discriminate; congruence.
Qed.

(** A float below zero is not above one hundred. *)
Lemma negative_below_100 (v : float) :
  (v <? 0) = true -> (100 <? v) = false /\ (0 <? v) = false.
Proof.
  rewrite !ltb_spec. unfold SFltb.
  replace (Prim2SF 0) with (S754_zero false) by reflexivity.
  replace (Prim2SF 100) with (S754_finite false 7036874417766400 (-46)) by reflexivity.
  destruct (Prim2SF v) as [[]|[]| |[] m e]; simpl; try discriminate; auto.
Qed.

(** Zero divided by a positive float is zero. *)
Lemma zero_div_positive (d : float) : (0 <? d) = true -> 0 / d = 0.
Proof.
  intros Hd. rewrite <- (SF2Prim_Prim2SF (0 / d)). rewrite div_spec.
  rewrite ltb_spec in Hd. unfold SFltb in Hd.
  replace (Prim2SF 0) with (S754_zero false) in * by reflexivity.
  destruct (Prim2SF d) as [[]|[]| |[] m e]; simpl in Hd; try discriminate; reflexivity.
Qed.

Lemma clamp_cases (v : float) :
  PrimFloat.is_nan v = false ->
  RecyclingMap.clamp v = 100 \/ RecyclingMap.clamp v = 0
  \/ (RecyclingMap.clamp v = v /\ (0 <=? v) = true /\ (v <=? 100) = true).
Proof.
  intros Hv. unfold RecyclingMap.clamp, Math.min.
  replace (PrimFloat.is_nan 100) with false by reflexivity. rewrite Hv. simpl.
  destruct (100 <? v) eqn:E1.
  - left. reflexivity.
  - assert (Hle : (v <=? 100) = true) by (apply not_ltb_leb; auto).
    assert (Hmin : (if v <? 100 then v else v) = v) by (destruct (v <? 100); reflexivity).
    rewrite Hmin. unfold Math.max.
    replace (PrimFloat.is_nan 0) with false by reflexivity. rewrite Hv. simpl.
    destruct (0 <? v) eqn:E2.
    + right. right. split; [reflexivity|]. split; [apply ltb_leb; exact E2 | exact Hle].
    + right. left. destruct (v <? 0); reflexivity.
Qed.

Lemma clamp_range (v : float) :
  PrimFloat.is_nan v = false ->
  (0 <=? RecyclingMap.clamp v) = true /\ (RecyclingMap.clamp v <=? 100) = true.
Proof.
  intros Hv. destruct (clamp_cases v Hv) as [-> | [-> | [-> [H0 H100]]]]; auto.
Qed.

Lemma clamp_below (v : float) : (v <? 0) = true -> RecyclingMap.clamp v = 0.
Proof.
  intros Hv. destruct (negative_below_100 v Hv) as [H100 H0].
  destruct (ltb_not_nan _ _ Hv) as [Hnan _].
  unfold RecyclingMap.clamp, Math.min.
  replace (PrimFloat.is_nan 100) with false by reflexivity. rewrite Hnan, H100. simpl.
  assert (Hmin : (if v <? 100 then v else v) = v) by (destruct (v <? 100); reflexivity).
  rewrite Hmin. unfold Math.max.
  replace (PrimFloat.is_nan 0) with false by reflexivity. rewrite Hnan, H0, Hv. reflexivity.
Qed.

Lemma clamp_above (v : float) : (100 <? v) = true -> RecyclingMap.clamp v = 100.
Proof.
  intros Hv. destruct (ltb_not_nan _ _ Hv) as [_ Hnan].
  unfold RecyclingMap.clamp, Math.min.
  replace (PrimFloat.is_nan 100) with false by reflexivity. rewrite Hnan, Hv. reflexivity.
Qed.

Lemma finite_is_number (v : float) : PrimFloat.is_finite v = true -> is_number (Prim2SF v).
Proof.
  unfold PrimFloat.is_finite, PrimFloat.is_infinity, PrimFloat.is_nan.
  rewrite !FloatAxioms.eqb_spec, abs_spec.
  replace (Prim2SF infinity) with (S754_infinity false) by reflexivity.
  destruct (Prim2SF v) as [s|[]| |s m e]; simpl; try discriminate; auto.
Qed.

Lemma positive_finite (d : float) :
  (0 <? d) = true -> (d <? infinity) = true -> exists m e, Prim2SF d = S754_finite false m e.
Proof.
  rewrite !ltb_spec. unfold SFltb.
  replace (Prim2SF infinity) with (S754_infinity false) by reflexivity.
  replace (Prim2SF 0) with (S754_zero false) by reflexivity.
  destruct (Prim2SF d) as [s|[]| |[] m e]; simpl; try discriminate; eauto.
Qed.

(** With finite pointer and corner coordinates and a positive finite scaled
    size, the raw percentage is a number. *)
Lemma rawPercent_is_number (client origin imageSize scale : float) :
  PrimFloat.is_finite client = true -> PrimFloat.is_finite origin = true ->
  (0 <? imageSize * scale) = true -> (imageSize * scale <? infinity) = true ->
  PrimFloat.is_nan (RecyclingMap.rawPercent client origin imageSize scale) = false.
Proof.
  intros Hc Ho Hpos Hfin. unfold RecyclingMap.rawPercent.
  destruct (positive_finite _ Hpos Hfin) as [m [e Hd]].
  apply spec_not_nan. rewrite mul_spec, div_spec, sub_spec, Hd.
  replace (Prim2SF 100) with (S754_finite false 7036874417766400 (-46)) by reflexivity.
  apply SFmul_not_nan, SFdiv_not_nan, SFsub_not_nan; apply finite_is_number; assumption.
Qed.

End FloatFacts.

(** ** The coordinate transform *)

(** C8.  For a click at pointer position [(clientX, clientY)] over a map
    container whose corner is at [(rect_left, rect_top)]: at the centre of the
    unscaled image (1000, 750 pixels in) the percentages are (50, 50); at the
    corner they are (0, 0), at any zoom that leaves the image a positive
    size; and wherever the click is, inside or outside the image, with finite
    coordinates and a positive finite scaled image size, both percentages lie
    in [0, 100], being exactly 0 when the raw value is below 0 and exactly 100
    when it is above 100. *)
Theorem map_click_percentages (e : RecyclingMap.MouseEvent) (rect_left rect_top : float) :
  let xOnImage := (RecyclingMap.clientX e - rect_left)%float in
  let yOnImage := (RecyclingMap.clientY e - rect_top)%float in
  (xOnImage = 1000%float -> yOnImage = 750%float ->
   RecyclingMap.percentages 1%float rect_left rect_top e = (50%float, 50%float))
  /\ (forall currentScale,
      xOnImage = 0%float -> yOnImage = 0%float ->
      (0 <? RecyclingMap.imageWidth * currentScale)%float = true ->
      (0 <? RecyclingMap.imageHeight * currentScale)%float = true ->
      RecyclingMap.percentages currentScale rect_left rect_top e = (0%float, 0%float))
  /\ (forall currentScale,
      let newXPercent := fst (RecyclingMap.percentages currentScale rect_left rect_top e) in
      let newYPercent := snd (RecyclingMap.percentages currentScale rect_left rect_top e) in
      PrimFloat.is_finite (RecyclingMap.clientX e) = true ->
      PrimFloat.is_finite (RecyclingMap.clientY e) = true ->
      PrimFloat.is_finite rect_left = true ->
      PrimFloat.is_finite rect_top = true ->
      (0 <? RecyclingMap.imageWidth * currentScale)%float = true ->
      (RecyclingMap.imageWidth * currentScale <? infinity)%float = true ->
      (0 <? RecyclingMap.imageHeight * currentScale)%float = true ->
      (RecyclingMap.imageHeight * currentScale <? infinity)%float = true ->
      (0 <=? newXPercent)%float = true /\ (newXPercent <=? 100)%float = true
      /\ (0 <=? newYPercent)%float = true /\ (newYPercent <=? 100)%float = true)
  /\ (forall currentScale,
      let rawX :=
        RecyclingMap.rawPercent (RecyclingMap.clientX e) rect_left
          RecyclingMap.imageWidth currentScale in
      let rawY :=
        RecyclingMap.rawPercent (RecyclingMap.clientY e) rect_top
          RecyclingMap.imageHeight currentScale in
      let newXPercent := fst (RecyclingMap.percentages currentScale rect_left rect_top e) in
      let newYPercent := snd (RecyclingMap.percentages currentScale rect_left rect_top e) in
      ((rawX <? 0)%float = true -> newXPercent = 0%float)
      /\ ((100 <? rawX)%float = true -> newXPercent = 100%float)
      /\ ((rawY <? 0)%float = true -> newYPercent = 0%float)
      /\ ((100 <? rawY)%float = true -> newYPercent = 100%float)).
Proof.
  intros xOnImage yOnImage. unfold RecyclingMap.percentages.
  split; [|split; [|split]].
  - unfold RecyclingMap.rawPercent. fold xOnImage yOnImage. intros -> ->. reflexivity.
  - unfold RecyclingMap.rawPercent. fold xOnImage yOnImage.
    intros currentScale -> -> Hw Hh.
    rewrite (zero_div_positive _ Hw), (zero_div_positive _ Hh). reflexivity.
  - intros currentScale. cbn [fst snd]. intros Hcx Hcy Hl Ht Hw Hwf Hh Hhf.
    pose proof (clamp_range _ (rawPercent_is_number _ _ _ _ Hcx Hl Hw Hwf)) as [Hx0 Hx100].
    pose proof (clamp_range _ (rawPercent_is_number _ _ _ _ Hcy Ht Hh Hhf)) as [Hy0 Hy100].
    auto.
  - intros currentScale. cbn [fst snd]. repeat split.
    + apply clamp_below.
    + apply clamp_above.
    + apply clamp_below.
    + apply clamp_above.
Qed.

(** The map container's corner is at (234, 237): a click at (1234, 987) is
    at the centre of the unscaled image, a click at (234, 237) at its corner,
    and a click at (0, 5000) is left of and below it. *)
Lemma map_click_percentages_witness :
  RecyclingMap.percentages 1%float 234%float 237%float (clickAt 1234%float 987%float)
    = (50%float, 50%float)
  /\ RecyclingMap.percentages 1%float 234%float 237%float (clickAt 234%float 237%float)
     = (0%float, 0%float)
  /\ (let p := RecyclingMap.percentages 1%float 234%float 237%float
                 (clickAt 0%float 5000%float) in
      (0 <=? fst p)%float = true /\ (fst p <=? 100)%float = true
      /\ (0 <=? snd p)%float = true /\ (snd p <=? 100)%float = true).
Proof.
  split; [|split].
  - apply (map_click_percentages (clickAt 1234%float 987%float) 234%float 237%float);
      reflexivity.
  - apply (map_click_percentages (clickAt 234%float 237%float) 234%float 237%float);
      reflexivity.
  - apply (map_click_percentages (clickAt 0%float 5000%float) 234%float 237%float);
      reflexivity.
Defined.

(** ** Reachable pages *)

Lemma feed_reachable (inputs : list Input) (a a' : App) :
  reachable a -> feed a inputs = Some a' -> reachable a'.
Proof.
  revert a. induction inputs as [|i rest IH]; simpl; intros a Ha H.
  - injection H as <-. exact Ha.
  - destruct (next a i) as [a1|] eqn:E; [|discriminate].
    apply (IH a1); [|exact H]. exact (reachable_next a a1 i Ha E).
Qed.

Lemma relocating_reachable : reachable (mkApp relocatingGlassBank 1%float []).
Proof. apply (feed_reachable relocatingInputs mounted); [constructor | reflexivity]. Qed.

Lemma adding_reachable : reachable (mkApp addingGlassPoint 1%float []).
Proof. apply (feed_reachable addingInputs mounted); [constructor | reflexivity]. Qed.

(** ** The placement flags never conflict *)

Ltac invariant_crush :=
  unfold placementInvariant in *; unfold_actions; simpl in *;
  intuition (try congruence).

Lemma category_ids_truthy (v : RecyclingCategoryEnum) :
  includes (map Category.id categories) v = true -> truthy v = true.
Proof.
  rewrite includes_In. simpl.
  intros [<-|[<-|[<-|[<-|[<-|[<-|[]]]]]]]; reflexivity.
Qed.

Lemma mounted_invariant : appInvariant mounted.
Proof.
  split.
  - invariant_crush.
  - constructor; [|constructor].
    intros b s _ Hinv. unfold fetchPoints. simpl.
    destruct (getRecyclingPoints b); invariant_crush.
Qed.

Lemma handleKeyDown_invariant (s : State) (key : string) :
  placementInvariant s -> placementInvariant (after (handleKeyDown s key) s).
Proof.
  intros Hinv. unfold handleKeyDown.
  destruct (String.eqb key "Escape"); [|invariant_crush].
  destruct (isAddingNewPointMode s) eqn:Eadd; [invariant_crush|].
  destruct (isSelectingLocation s) eqn:Eloc.
  - destruct (editingPointId s) as [e|]; [destruct (truthy e)|]; invariant_crush.
  - destruct (selectedPoint s); simpl; [|invariant_crush].
    destruct (truthyId (editingPointId s)); invariant_crush.
Qed.

Lemma handleToggleEditMode_invariant (s : State) (pointIdToToggle : option string) :
  placementInvariant s ->
  placementInvariant (after (handleToggleEditMode s pointIdToToggle) s).
Proof.
  intros Hinv. unfold handleToggleEditMode.
  destruct (isSelectingLocation s) eqn:Eloc;
    destruct (strictEq (editingPointId s) pointIdToToggle); simpl;
    destruct pointIdToToggle; invariant_crush.
Qed.

Lemma handleInitiateAddPoint_invariant (s : State) :
  placementInvariant s -> placementInvariant (after (handleInitiateAddPoint s) s).
Proof.
  intros Hinv. unfold handleInitiateAddPoint.
  destruct (truthy (categoryForNewPoint s)) eqn:E; invariant_crush.
Qed.

Lemma handlePointSelect_invariant (s : State) (point : RecyclingPoint) :
  placementInvariant s -> placementInvariant (after (handlePointSelect s point) s).
Proof.
  intros Hinv. unfold handlePointSelect.
  destruct (isAddingNewPointMode s); [invariant_crush|].
  destruct (isSelectingLocation s); [invariant_crush|].
  destruct (truthyId (editingPointId s)
            && negb (strictEq (editingPointId s) (Some (RecyclingPoint.id point)))
            && negb false); invariant_crush.
Qed.

(** The change-location handler does not write the add-point flag; the
    dialog that offers it is only open outside add-point mode. *)
Lemma handleChangeLocationStart_keeps_add_mode (s : State) :
  isAddingNewPointMode (after (handleChangeLocationStart s) s) = isAddingNewPointMode s.
Proof.
  unfold handleChangeLocationStart. destruct (truthyId (editingPointId s)); reflexivity.
Qed.

Lemma handleChangeLocationStart_invariant (s : State) :
  isAddingNewPointMode s = false ->
  placementInvariant s -> placementInvariant (after (handleChangeLocationStart s) s).
Proof.
  intros Hadd Hinv. unfold handleChangeLocationStart.
  destruct (truthyId (editingPointId s)) eqn:E; invariant_crush.
Qed.

Lemma dialogPoint_not_adding (s : State) (point : RecyclingPoint) :
  dialogPoint s = Some point ->
  isAddingNewPointMode s = false /\ isSelectingLocation s = false
  /\ selectedPoint s = Some point.
Proof.
  unfold dialogPoint, dialogOpen.
  destruct (pageRendered s); simpl; [|discriminate].
  destruct (selectedPoint s); simpl; [|discriminate].
  destruct (isSelectingLocation s); simpl; [discriminate|].
  destruct (isAddingNewPointMode s); simpl; [discriminate|]. auto.
Qed.

Lemma coordinate_change_preserving (snap : State) (pointId : string) (newX newY : float) :
  preserving (handlePointCoordinateChange snap pointId newX newY).
Proof.
  intros b s _ Hinv. unfold handlePointCoordinateChange.
  destruct (findPoint (allPoints snap) pointId); simpl; [|invariant_crush].
  destruct (Service.updateRecyclingPointInDB _ _ _ _); invariant_crush.
Qed.

Lemma category_change_preserving (snap : State) (pointId : string)
    (newCategoryId : RecyclingCategoryEnum) :
  preserving (handlePointCategoryChange snap pointId newCategoryId).
Proof.
  intros b s _ Hinv. unfold handlePointCategoryChange.
  destruct (findPoint (allPoints snap) pointId); simpl; [|invariant_crush].
  destruct (Service.updateRecyclingPointInDB _ _ _ _); [|invariant_crush].
  destruct (isSelected snap pointId); invariant_crush.
Qed.

Lemma name_change_preserving (snap : State) (pointId newName : string) :
  preserving (handlePointNameChange snap pointId newName).
Proof.
  intros b s _ Hinv. unfold handlePointNameChange.
  destruct (findPoint (allPoints snap) pointId); simpl; [|invariant_crush].
  destruct (Service.updateRecyclingPointInDB _ _ _ _); [|invariant_crush].
  destruct (isSelected snap pointId); invariant_crush.
Qed.

Lemma description_change_preserving (snap : State) (pointId newDescription : string) :
  preserving (handlePointDescriptionChange snap pointId newDescription).
Proof.
  intros b s _ Hinv. unfold handlePointDescriptionChange.
  destruct (findPoint (allPoints snap) pointId); simpl; [|invariant_crush].
  destruct (Service.updateRecyclingPointInDB _ _ _ _); [|invariant_crush].
  destruct (isSelected snap pointId); invariant_crush.
Qed.

Lemma delete_preserving (snap : State) (pointId : string) :
  preserving (handleDeletePoint snap pointId).
Proof.
  intros b s _ Hinv. unfold handleDeletePoint.
  destruct (findPoint (allPoints snap) pointId); simpl; [|invariant_crush].
  destruct (Service.deleteRecyclingPointFromDB _ _ _); invariant_crush.
Qed.

Lemma place_new_point_preserving (snap : State) (newX newY : float) :
  preserving (handlePlaceNewPoint snap newX newY).
Proof.
  intros b s Hb Hinv. unfold handlePlaceNewPoint.
  destruct (negb (isAddingNewPointMode snap) || negb (truthy (categoryForNewPoint snap)));
    simpl; [invariant_crush|].
  unfold Service.addRecyclingPointToDB, backendOk in *.
  destruct (db b); simpl; [|invariant_crush].
  destruct (addDoc b); invariant_crush.
Qed.

Lemma dispatch_invariant (s : State) (scale : float) (ev : Event) (p : Async) :
  placementInvariant s -> dispatch s scale ev = Some p ->
  match p with
  | Return now => placementInvariant (after now s)
  | _ => preserving p
  end.
Proof.
  intros Hinv Hd.
  assert (Hasync : forall q : Async, preserving q ->
            match q with
            | Return now => placementInvariant (after now s)
            | _ => preserving q
            end).
  { intros q Hq. destruct q; auto.
    exact (Hq firestoreDown s eq_refl Hinv). }
  destruct ev; unfold dispatch in Hd.
  - injection Hd as <-. apply handleKeyDown_invariant, Hinv.
  - destruct (_ && _); [|discriminate]. injection Hd as <-.
    unfold handleCategoryChange. invariant_crush.
  - destruct (pageRendered s); [|discriminate]. injection Hd as <-.
    unfold resetFilters. invariant_crush.
  - destruct (pageRendered s); [|discriminate]. injection Hd as <-.
    unfold handleTrackMe. destruct geolocationSupported; invariant_crush.
  - injection Hd as <-. destruct found; unfold geolocationFound, geolocationFailed;
      invariant_crush.
  - destruct (pageRendered s); [|discriminate]. cbn [andb] in Hd.
    destruct (includes _ value) eqn:E; [|discriminate]. injection Hd as <-.
    apply category_ids_truthy in E. invariant_crush.
  - destruct (_ && _); [|discriminate]. injection Hd as <-.
    apply handleInitiateAddPoint_invariant, Hinv.
  - destruct (pageRendered s); [|discriminate].
    destruct (nth_error _ _) as [point|]; [|discriminate]. injection Hd as <-.
    destruct (RecyclingMap.markerOnClick s);
      [apply handlePointSelect_invariant, Hinv | invariant_crush].
  - destruct (pageRendered s); [|discriminate].
    destruct (RecyclingMap.handleMapClick s scale e); injection Hd as <-.
    + invariant_crush.
    + apply Hasync, place_new_point_preserving.
    + apply Hasync, coordinate_change_preserving.
  - destruct (pageRendered s); [|discriminate]. injection Hd as <-. invariant_crush.
  - destruct (pageRendered s); [|discriminate]. injection Hd as <-. invariant_crush.
  - destruct (pageRendered s); [|discriminate]. injection Hd as <-. invariant_crush.
  - destruct (dialogPoint s); [|discriminate]. injection Hd as <-. invariant_crush.
  - destruct (dialogPoint s) as [point|]; [|discriminate].
    destruct (negb _); [|discriminate]. injection Hd as <-.
    apply handleToggleEditMode_invariant, Hinv.
  - destruct (dialogPoint s) as [point|]; [|discriminate].
    destruct (isCurrentlyEditingThisPoint s point); [|discriminate]. injection Hd as <-.
    pose proof (handleToggleEditMode_invariant s None Hinv) as H.
    unfold after, andThen, toast in *.
    destruct (handleToggleEditMode s None s) as [s1 t1]. simpl in *. exact H.
  - destruct (dialogPoint s) as [point|]; [|discriminate]. injection Hd as <-.
    destruct (_ && _); [apply handleToggleEditMode_invariant, Hinv | invariant_crush].
  - destruct (dialogPoint s) as [point|]; [|discriminate]. injection Hd as <-.
    unfold handleProblemReportSubmit. destruct (findPoint _ _); invariant_crush.
  - destruct (dialogPoint s) as [point|]; [|discriminate].
    destruct (isCurrentlyEditingThisPoint s point); [|discriminate]. injection Hd as <-.
    apply Hasync, name_change_preserving.
  - destruct (dialogPoint s) as [point|]; [|discriminate].
    destruct (isCurrentlyEditingThisPoint s point); [|discriminate]. injection Hd as <-.
    apply Hasync, description_change_preserving.
  - destruct (dialogPoint s) as [point|]; [|discriminate].
    destruct (_ && _); [|discriminate]. injection Hd as <-.
    apply Hasync, category_change_preserving.
  - destruct (dialogPoint s) as [point|] eqn:Edlg; [|discriminate].
    destruct (isCurrentlyEditingThisPoint s point); [|discriminate]. injection Hd as <-.
    apply dialogPoint_not_adding in Edlg as [Hadd _].
    apply handleChangeLocationStart_invariant; assumption.
  - destruct (dialogPoint s) as [point|]; [|discriminate].
    destruct (isCurrentlyEditingThisPoint s point); [|discriminate]. injection Hd as <-.
    apply Hasync, delete_preserving.
Qed.

Lemma removeNth_Forall {A : Type} (P : A -> Prop) (n : nat) (l : list A) :
  Forall P l -> Forall P (removeNth n l).
Proof.
  intros H. revert n. induction H as [|a l Ha Hl IH]; intros [|n]; simpl; auto.
Qed.

Lemma next_invariant (a a' : App) (i : Input) :
  appInvariant a -> next a i = Some a' -> appInvariant a'.
Proof.
  intros [Hinv Hfl] Hnext. destruct i as [ev | index b]; simpl in Hnext.
  - destruct (dispatch (home a) (currentScale a) ev) as [p|] eqn:Ed; [|discriminate].
    pose proof (dispatch_invariant _ _ _ _ Hinv Ed) as Hp.
    destruct p; injection Hnext as <-; split; simpl; auto;
      apply Forall_app; split; auto.
  - destruct (backendOk b) eqn:Eb; [|discriminate].
    destruct (nth_error (inflight a) index) as [pending|] eqn:En; [|discriminate].
    injection Hnext as <-. split; simpl.
    + apply nth_error_In in En. rewrite Forall_forall in Hfl.
      exact (Hfl pending En b (home a) Eb Hinv).
    + apply removeNth_Forall, Hfl.
Qed.

Lemma reachable_invariant (a : App) : reachable a -> appInvariant a.
Proof.
  induction 1 as [|a a' i Ha IH Hnext].
  - exact mounted_invariant.
  - exact (next_invariant a a' i IH Hnext).
Qed.

(** ** Escape *)

(** C5.  What Escape does, by case, from any state.  In add-point mode only
    the mode flag and the pending category are reset.  Otherwise, while a
    location is being picked, only that flag is reset and, when a point is
    being edited, the dialog's point is looked up again in the local list by
    the edited id (so the dialog reopens on that point when the list has it).
    Otherwise, with a point selected and none edited, the dialog is closed.
    In every other case, and for every other key, nothing changes.  One toast
    is shown, that of the case that fired, if it has one.  On a reachable page
    a location is only ever picked for a point being edited, so the second
    case is the relocation of that point. *)
Theorem escape_fires_one_case (s : State) :
  let s' := after (handleKeyDown s "Escape") s in
  (isAddingNewPointMode s = true ->
     s' = mkState (allPoints s) (selectedCategories s) (selectedPoint s) (isClient s)
            (editingPointId s) (isSelectingLocation s) false "" (isLoading s) (error s)
            (currentUserLocationMarker s))
  /\ (isAddingNewPointMode s = false -> isSelectingLocation s = true ->
      s' = mkState (allPoints s) (selectedCategories s)
             (match editingPointId s with
              | Some editing =>
                  if truthy editing then findPoint (allPoints s) editing
                  else selectedPoint s
              | None => selectedPoint s
              end)
             (isClient s) (editingPointId s) false false (categoryForNewPoint s)
             (isLoading s) (error s) (currentUserLocationMarker s)
      /\ (forall editing p,
            editingPointId s = Some editing -> truthy editing = true ->
            findPoint (allPoints s) editing = Some p ->
            selectedPoint s' = Some p /\ dialogOpen s' = true))
  /\ (isAddingNewPointMode s = false -> isSelectingLocation s = false ->
      forall p, selectedPoint s = Some p -> truthyId (editingPointId s) = false ->
      s' = mkState (allPoints s) (selectedCategories s) None (isClient s)
             None false false (categoryForNewPoint s)
             (isLoading s) (error s) (currentUserLocationMarker s)
      /\ dialogOpen s' = false)
  /\ (isAddingNewPointMode s = false -> isSelectingLocation s = false ->
      (selectedPoint s = None \/ truthyId (editingPointId s) = true) ->
      s' = s)
  /\ (forall key, key <> "Escape" -> after (handleKeyDown s key) s = s)
  /\ toasts (handleKeyDown s "Escape") s =
     (if isAddingNewPointMode s then ["Add Point Cancelled"]
      else if isSelectingLocation s then ["Location Change Cancelled"]
      else [])
  /\ (forall a, reachable a -> home a = s -> isSelectingLocation s = true ->
      exists editing, editingPointId s = Some editing /\ truthy editing = true).
Proof.
  intros s'. subst s'. unfold handleKeyDown. simpl.
  destruct s as [pts cats sel cl ed loc add cat ld err mk]. simpl.
  split; [intros ->; reflexivity|].
  split.
  { intros -> ->. unfold_actions. simpl. split.
    - destruct ed as [e|]; [destruct (truthy e)|]; reflexivity.
    - intros editing p [= ->] Ht Hf. rewrite Ht, Hf. simpl. split; reflexivity. }
  split.
  { intros -> -> p -> Hed. rewrite Hed. unfold_actions. simpl. split; reflexivity. }
  split.
  { intros -> -> [-> | Hed]; [reflexivity|].
    rewrite Hed. simpl. rewrite andb_false_r. reflexivity. }
  split.
  { intros key Hkey. apply String.eqb_neq in Hkey. rewrite Hkey. reflexivity. }
  split.
  { unfold_actions. destruct add; [reflexivity|]. destruct loc.
    - destruct ed as [e|]; [destruct (truthy e)|]; reflexivity.
    - destruct sel; simpl; [destruct (truthyId ed)|]; reflexivity. }
  intros a Hreach Hhome Hloc. simpl in Hloc.
  destruct (reachable_invariant a Hreach) as [[_ [Hedited _]] _].
  rewrite Hhome in Hedited. simpl in Hedited. specialize (Hedited Hloc).
  destruct ed as [e|]; [|discriminate]. exists e. auto.
Qed.

(** Escape while a glass point is about to be placed: only the mode and the
    pending category are reset, which is the loaded page again. *)
Lemma escape_fires_one_case_witness :
  after (handleKeyDown addingGlassPoint "Escape") addingGlassPoint = idlePage.
Proof.
  apply (escape_fires_one_case addingGlassPoint).
  reflexivity.
Defined.

(** C1.  In every reachable page add-point mode and location picking are
    never both on.  The add-point trigger turns add-point mode on with location
    picking off and no point edited or selected; the change-location action,
    which the dialog only offers outside add-point mode, leaves add-point mode
    off and turns location picking on for the point being edited. *)
Theorem placement_modes_exclusive (a : App) :
  reachable a ->
  isAddingNewPointMode (home a) && isSelectingLocation (home a) = false
  /\ (forall a', next a (User AddPointClick) = Some a' ->
      isAddingNewPointMode (home a') = true
      /\ isSelectingLocation (home a') = false
      /\ editingPointId (home a') = None
      /\ selectedPoint (home a') = None)
  /\ (forall a', next a (User DialogChangeLocation) = Some a' ->
      isAddingNewPointMode (home a') = false
      /\ (truthyId (editingPointId (home a)) = true ->
          isSelectingLocation (home a') = true)).
Proof.
  intros Hreach. destruct (reachable_invariant a Hreach) as [[Hexcl _] _].
  split; [|split].
  - destruct (isAddingNewPointMode (home a)); [|reflexivity].
    rewrite (Hexcl eq_refl). reflexivity.
  - intros a' Hnext. unfold next, dispatch in Hnext.
    destruct (pageRendered (home a)); [|discriminate]. cbn [andb] in Hnext.
    destruct (truthy (categoryForNewPoint (home a))) eqn:Ecat; [|discriminate].
    injection Hnext as <-. unfold handleInitiateAddPoint. rewrite Ecat.
    unfold_actions. simpl. auto.
  - intros a' Hnext. unfold next, dispatch in Hnext.
    destruct (dialogPoint (home a)) as [point|] eqn:Edlg; [|discriminate].
    destruct (isCurrentlyEditingThisPoint (home a) point); [|discriminate].
    injection Hnext as <-.
    apply dialogPoint_not_adding in Edlg as [Hadd _].
    unfold handleChangeLocationStart.
    destruct (truthyId (editingPointId (home a))); unfold_actions; simpl; split; auto.
    discriminate.
Qed.

(** The page on which a new location is being picked for the glass bank is
    reachable, and is not in add-point mode. *)
Lemma placement_modes_exclusive_witness :
  isAddingNewPointMode relocatingGlassBank && isSelectingLocation relocatingGlassBank = false.
Proof.
  apply (placement_modes_exclusive (mkApp relocatingGlassBank 1%float [])).
  apply (feed_reachable relocatingInputs mounted); [constructor | reflexivity].
Defined.

(** ** Relocating a point *)

Lemma replacePoint_In (pointId : string) (updated q : RecyclingPoint)
    (points : list RecyclingPoint) :
  In q (replacePoint pointId updated points) <->
  (q = updated /\ exists r, In r points /\ RecyclingPoint.id r = pointId)
  \/ (In q points /\ RecyclingPoint.id q <> pointId).
Proof.
  unfold replacePoint. rewrite in_map_iff. split.
  - intros [r [Hr Hin]].
    destruct (String.eqb (RecyclingPoint.id r) pointId) eqn:E.
    + apply String.eqb_eq in E. left. split; [auto|]. exists r. auto.
    + apply String.eqb_neq in E. right. subst q. auto.
  - intros [[-> [r [Hin Hid]]] | [Hin Hid]].
    + exists r. apply String.eqb_eq in Hid. rewrite Hid. auto.
    + exists q. apply String.eqb_neq in Hid. rewrite Hid. auto.
Qed.

(** C2.  On a reachable page where point [p] of the local list is being
    edited and a location is being picked, a click on the bare map calls the
    coordinate change for [p]'s id with the clamped percentages of the click,
    which issues one update of x and y.  When that update succeeds, the edited
    id is still [p]'s, location picking is off, the dialog is open on a point
    with that id and the new x and y, every entry of the list with that id has
    the new x and y (and there is one), and the other entries are as before. *)
Theorem relocation_moves_the_point (a : App) (p : RecyclingPoint)
    (e : RecyclingMap.MouseEvent) (rect_left rect_top : float) (b : Backend) :
  reachable a ->
  let s := home a in
  In p (allPoints s) ->
  editingPointId s = Some (RecyclingPoint.id p) ->
  isSelectingLocation s = true ->
  RecyclingMap.viewportRef_current e = true ->
  RecyclingMap.targetInMarker e = false ->
  RecyclingMap.mapContainer_rect e = Some (rect_left, rect_top) ->
  let pointId := RecyclingPoint.id p in
  let newX := fst (RecyclingMap.percentages (currentScale a) rect_left rect_top e) in
  let newY := snd (RecyclingMap.percentages (currentScale a) rect_left rect_top e) in
  let updates := Updates.mk None None (Some newX) (Some newY) None in
  RecyclingMap.handleMapClick s (currentScale a) e
    = RecyclingMap.onPointCoordinateChange pointId newX newY
  /\ storeCalls (handlePointCoordinateChange s pointId newX newY)
     = [CallUpdate pointId updates]
  /\ (Service.updateRecyclingPointInDB (db b) pointId updates (updateDoc b) = Fulfilled tt ->
      let s' := fst (run b (fun snap => handlePointCoordinateChange snap pointId newX newY) s) in
      editingPointId s' = Some pointId
      /\ isSelectingLocation s' = false
      /\ (exists q, selectedPoint s' = Some q /\ RecyclingPoint.id q = pointId
                    /\ RecyclingPoint.x q = newX /\ RecyclingPoint.y q = newY)
      /\ dialogOpen s' = true
      /\ (exists q, In q (allPoints s') /\ RecyclingPoint.id q = pointId)
      /\ (forall q, In q (allPoints s') -> RecyclingPoint.id q = pointId ->
                    RecyclingPoint.x q = newX /\ RecyclingPoint.y q = newY)
      /\ (forall q, RecyclingPoint.id q <> pointId ->
                    (In q (allPoints s') <-> In q (allPoints s)))).
Proof.
  intros Hreach s Hin Hedit Hloc Hview Hmarker Hrect pointId newX newY updates.
  destruct (reachable_invariant a Hreach) as [[Hexcl [Hed _]] _]. fold s in Hexcl, Hed.
  assert (Hadd : isAddingNewPointMode s = false).
  { destruct (isAddingNewPointMode s); [|reflexivity].
    rewrite (Hexcl eq_refl) in Hloc. discriminate. }
  assert (Htruthy : truthy pointId = true).
  { specialize (Hed Hloc). rewrite Hedit in Hed. exact Hed. }
  destruct (findPoint_present _ _ Hin) as [first Hfirst]. fold pointId in Hfirst.
  destruct (findPoint_some _ _ _ Hfirst) as [_ Hfirst_id].
  split; [|split].
  - unfold RecyclingMap.handleMapClick. rewrite Hview, Hmarker, Hrect. cbn [negb].
    subst newX newY.
    destruct (RecyclingMap.percentages (currentScale a) rect_left rect_top e) as [px py].
    cbn [fst snd]. rewrite Hadd, Hedit. fold pointId. rewrite Htruthy, Hloc. reflexivity.
  - unfold handlePointCoordinateChange. rewrite Hfirst. reflexivity.
  - intros Hok s'. subst s'. unfold run, handlePointCoordinateChange.
    rewrite Hfirst. cbn [settle]. fold updates. rewrite Hok.
    unfold_actions. simpl. unfold dialogOpen. simpl. rewrite Hadd.
    repeat split.
    + eexists. split; [reflexivity|]. simpl. auto.
    + exists (RecyclingPoint.mk (RecyclingPoint.id first) (RecyclingPoint.name first)
                (RecyclingPoint.category first) newX newY (RecyclingPoint.description first)).
      split; [|exact Hfirst_id]. apply replacePoint_In. left. split; [reflexivity|].
      exists p. auto.
    + apply replacePoint_In in H as [[-> _] | [_ Hne]]; [reflexivity | contradiction].
    + apply replacePoint_In in H as [[-> _] | [_ Hne]]; [reflexivity | contradiction].
    + intros Hq. apply replacePoint_In in Hq as [[-> _] | [Hq _]]; [|exact Hq].
      simpl in H. contradiction.
    + intros Hq. apply replacePoint_In. right. auto.
Qed.

(** The glass bank is moved by a click at the centre of the unscaled map:
    it ends at (50, 50) in the dialog, still being edited, location picking
    off. *)
Lemma relocation_moves_the_point_witness :
  let s' :=
    fst (run firestoreUp
           (fun snap => handlePointCoordinateChange snap "p1" 50%float 50%float)
           relocatingGlassBank) in
  editingPointId s' = Some "p1"
  /\ isSelectingLocation s' = false
  /\ (exists q, selectedPoint s' = Some q /\ RecyclingPoint.id q = "p1"
                /\ RecyclingPoint.x q = 50%float /\ RecyclingPoint.y q = 50%float).
Proof.
  destruct (relocation_moves_the_point (mkApp relocatingGlassBank 1%float []) glassBank
              (clickAt 1234%float 987%float) 234%float 237%float firestoreUp)
    as [_ [_ H]].
  - apply (feed_reachable relocatingInputs mounted); [constructor | reflexivity].
  - simpl. auto.
  - reflexivity.
  - reflexivity.
  - reflexivity.
  - reflexivity.
  - reflexivity.
  - destruct (H eq_refl) as [H1 [H2 [H3 _]]]. repeat split; assumption.
Defined.

(** ** Adding a point *)

(** C4.  On a reachable page in add-point mode a category is pending, and a
    click on the bare map calls the placement with the clamped percentages of
    the click, which issues one insert: the default name, the pending
    category, the click's x and y, an empty description.  When the insert
    succeeds with document id [docId], the new point (that data under that
    id) is appended to the list and is the dialog's point, it is the point
    being edited, add-point mode is off, the pending category is empty, and
    the dialog is open. *)
Theorem new_point_is_inserted_then_edited (a : App) (e : RecyclingMap.MouseEvent)
    (rect_left rect_top : float) (b : Backend) :
  reachable a ->
  let s := home a in
  isAddingNewPointMode s = true ->
  RecyclingMap.viewportRef_current e = true ->
  RecyclingMap.targetInMarker e = false ->
  RecyclingMap.mapContainer_rect e = Some (rect_left, rect_top) ->
  let c := categoryForNewPoint s in
  let newX := fst (RecyclingMap.percentages (currentScale a) rect_left rect_top e) in
  let newY := snd (RecyclingMap.percentages (currentScale a) rect_left rect_top e) in
  let newPointData := PointData.mk "New Recycling Point" c newX newY "" in
  c <> ""
  /\ RecyclingMap.handleMapClick s (currentScale a) e
     = RecyclingMap.onPlaceNewPoint newX newY
  /\ storeCalls (handlePlaceNewPoint s newX newY) = [CallAdd newPointData]
  /\ (forall docId,
      db b = true -> addDoc b = Fulfilled docId ->
      let s' := fst (run b (fun snap => handlePlaceNewPoint snap newX newY) s) in
      let addedPointWithId := RecyclingPoint.mk docId "New Recycling Point" c newX newY "" in
      allPoints s' = allPoints s ++ [addedPointWithId]
      /\ selectedPoint s' = Some addedPointWithId
      /\ editingPointId s' = Some docId
      /\ isSelectingLocation s' = false
      /\ isAddingNewPointMode s' = false
      /\ categoryForNewPoint s' = ""
      /\ dialogOpen s' = true).
Proof.
  intros Hreach s Hadd Hview Hmarker Hrect c newX newY newPointData.
  destruct (reachable_invariant a Hreach) as [[Hexcl [_ Hcat]] _]. fold s in Hexcl, Hcat.
  specialize (Hexcl Hadd). specialize (Hcat Hadd). fold c in Hcat.
  split; [|split; [|split]].
  - intros E. rewrite E in Hcat. discriminate.
  - unfold RecyclingMap.handleMapClick. rewrite Hview, Hmarker, Hrect. cbn [negb].
    subst newX newY.
    destruct (RecyclingMap.percentages (currentScale a) rect_left rect_top e) as [px py].
    cbn [fst snd]. rewrite Hadd. reflexivity.
  - unfold handlePlaceNewPoint. rewrite Hadd. fold c. rewrite Hcat. reflexivity.
  - intros docId Hdb HaddDoc s' addedPointWithId. subst s'.
    unfold run, handlePlaceNewPoint. rewrite Hadd. fold c. rewrite Hcat.
    cbn [negb orb settle]. unfold Service.addRecyclingPointToDB.
    rewrite Hdb, HaddDoc. unfold_actions. simpl. unfold dialogOpen. simpl.
    rewrite Hexcl. repeat split.
Qed.

(** A glass point placed by a click at the centre of the unscaled map, the
    store answering with the id "p3". *)
Lemma new_point_is_inserted_then_edited_witness :
  storeCalls (handlePlaceNewPoint addingGlassPoint 50%float 50%float)
    = [CallAdd (PointData.mk "New Recycling Point" "glass" 50%float 50%float "")]
  /\ editingPointId
       (fst (run firestoreUp (fun snap => handlePlaceNewPoint snap 50%float 50%float)
               addingGlassPoint)) = Some "p3".
Proof.
  destruct (new_point_is_inserted_then_edited (mkApp addingGlassPoint 1%float [])
              (clickAt 1234%float 987%float) 234%float 237%float firestoreUp)
    as [_ [_ [Hcall H]]].
  - apply (feed_reachable addingInputs mounted); [constructor | reflexivity].
  - reflexivity.
  - reflexivity.
  - reflexivity.
  - reflexivity.
  - split; [exact Hcall|]. destruct (H "p3" eq_refl eq_refl) as [_ [_ [H3 _]]]. exact H3.
Defined.

(** * Further properties of the code *)

(** ** Zoom *)

Lemma zoomLevels_closed (s : float) :
  In s zoomLevels ->
  In (RecyclingMap.handleZoomIn s) zoomLevels
  /\ In (RecyclingMap.handleZoomOut s) zoomLevels
  /\ (0.5 <=? s)%float = true /\ (s <=? 3)%float = true
  /\ (0 <? RecyclingMap.imageWidth * s)%float = true
  /\ (RecyclingMap.imageWidth * s <? infinity)%float = true
  /\ (0 <? RecyclingMap.imageHeight * s)%float = true
  /\ (RecyclingMap.imageHeight * s <? infinity)%float = true.
Proof.
  intros H. unfold zoomLevels in H. simpl in H.
  repeat (destruct H as [<-|H];
          [vm_compute; repeat split; repeat (first [left; reflexivity | right])|]).
  contradiction.
Qed.

Lemma next_currentScale (a a' : App) (i : Input) :
  next a i = Some a' ->
  currentScale a' = currentScale a
  \/ currentScale a' = RecyclingMap.handleZoomIn (currentScale a)
  \/ currentScale a' = RecyclingMap.handleZoomOut (currentScale a)
  \/ currentScale a' = 1%float.
Proof.
  destruct i as [ev|index b]; simpl.
  - destruct (dispatch (home a) (currentScale a) ev) as [[now| | | |]|];
      try discriminate; intros [= <-]; simpl; auto.
    destruct ev; simpl; auto.
  - destruct (backendOk b); [|discriminate].
    destruct (nth_error (inflight a) index); [|discriminate]. intros [= <-]. auto.
Qed.

Lemma reachable_zoomLevels (a : App) : reachable a -> In (currentScale a) zoomLevels.
Proof.
  induction 1 as [|a a' i Ha IH Hnext].
  - simpl. auto.
  - destruct (zoomLevels_closed _ IH) as [Hin [Hout _]].
    destruct (next_currentScale a a' i Hnext) as [-> | [-> | [-> | ->]]]; auto.
    simpl. auto.
Qed.

(** X1.  On every reachable page the map's zoom factor lies in [0.5, 3],
    and the scaled image has a positive, finite width and height. *)
Theorem zoom_stays_in_range (a : App) :
  reachable a ->
  within 0.5%float 3%float (currentScale a)
  /\ (0 <? RecyclingMap.imageWidth * currentScale a)%float = true
  /\ (RecyclingMap.imageWidth * currentScale a <? infinity)%float = true
  /\ (0 <? RecyclingMap.imageHeight * currentScale a)%float = true
  /\ (RecyclingMap.imageHeight * currentScale a <? infinity)%float = true.
Proof.
  intros Hreach. unfold within.
  destruct (zoomLevels_closed _ (reachable_zoomLevels a Hreach))
    as [_ [_ [H1 [H2 [H3 [H4 [H5 H6]]]]]]].
  auto 10.
Qed.

(** Ten zoom-ins from the loaded page stop at 3. *)
Lemma zoom_stays_in_range_witness : within 0.5%float 3%float 3%float.
Proof.
  apply (zoom_stays_in_range (mkApp idlePage 3%float [])).
  apply (feed_reachable zoomedInputs mounted); [constructor | reflexivity].
Defined.

(** ** Clamping between two bounds *)

Section SpecDivision.

Variables prec emax : Z.

Lemma SFdiv_finite_not_nan (sp : bool) (mp : positive) (ep : Z) (q : spec_float) :
  q <> S754_nan -> SFdiv prec emax (S754_finite sp mp ep) q <> S754_nan.
Proof.
  destruct q as [sq|sq| |sq mq eq]; try discriminate; try congruence. intros _.
  apply SFdiv_not_nan. discriminate.
Qed.

End SpecDivision.

Section ClampFacts.

Local Open Scope float_scope.

Lemma leb_refl (a : float) : PrimFloat.is_nan a = false -> (a <=? a) = true.
Proof.
  intros Ha. rewrite leb_spec. unfold SFleb.
  rewrite (SFcompare_refl _ (not_nan_spec _ Ha)). reflexivity.
Qed.

Lemma min_facts (hi v : float) :
  PrimFloat.is_nan hi = false -> PrimFloat.is_nan v = false ->
  PrimFloat.is_nan (Math.min hi v) = false /\ (Math.min hi v <=? hi) = true.
Proof.
  intros Hhi Hv. unfold Math.min. rewrite Hhi, Hv. simpl.
  destruct (hi <? v) eqn:E1; [split; [exact Hhi | apply leb_refl, Hhi]|].
  assert (Hle : (v <=? hi) = true) by (apply not_ltb_leb; auto).
  destruct (v <? hi); [auto|].
  destruct (PrimFloat.get_sign hi); [split; [exact Hhi | apply leb_refl, Hhi] | auto].
Qed.

Lemma max_facts (lo m : float) :
  PrimFloat.is_nan lo = false -> PrimFloat.is_nan m = false ->
  (lo <=? Math.max lo m) = true
  /\ (forall hi, (lo <=? hi) = true -> (m <=? hi) = true -> (Math.max lo m <=? hi) = true).
Proof.
  intros Hlo Hm. unfold Math.max. rewrite Hlo, Hm. simpl.
  destruct (lo <? m) eqn:E1; [split; [apply ltb_leb, E1 | auto]|].
  assert (Hle : (m <=? lo) = true) by (apply not_ltb_leb; auto).
  destruct (m <? lo) eqn:E2; [split; [apply leb_refl, Hlo | auto]|].
  assert (Hge : (lo <=? m) = true) by (apply not_ltb_leb; auto).
  destruct (PrimFloat.get_sign lo); split; auto. apply leb_refl, Hlo.
Qed.

Lemma clamp_between (lo hi v : float) :
  PrimFloat.is_nan lo = false -> PrimFloat.is_nan hi = false ->
  PrimFloat.is_nan v = false -> (lo <=? hi) = true ->
  within lo hi (Math.max lo (Math.min hi v)).
Proof.
  intros Hlo Hhi Hv Hle. destruct (min_facts hi v Hhi Hv) as [Hm Hmhi].
  destruct (max_facts lo _ Hlo Hm) as [H1 H2]. split; auto.
Qed.

(** A finite non-zero float divided by a float that is a number is a
    number. *)
Lemma div_of_finite (c s : float) (sc : bool) (mc : positive) (ec : Z) :
  Prim2SF c = S754_finite sc mc ec -> PrimFloat.is_nan s = false ->
  PrimFloat.is_nan (c / s) = false.
Proof.
  intros Hc Hs. apply spec_not_nan. rewrite div_spec, Hc.
  apply SFdiv_finite_not_nan, not_nan_spec, Hs.
Qed.

End ClampFacts.

(** X2.  Whatever the zoom factor, as long as it is a number (zero and the
    infinities included), a point marker's icon size lies in [10, 60] and the
    location marker's size in [12, 50]; at zoom 1 they are 18 and 24. *)
Theorem marker_sizes_are_bounded (scale : float) :
  PrimFloat.is_nan scale = false ->
  within 10%float 60%float (PointMarker.intrinsicIconSize scale)
  /\ within 12%float 50%float (MapView.intrinsicLocationMarkerSize scale)
  /\ PointMarker.intrinsicIconSize 1%float = 18%float
  /\ MapView.intrinsicLocationMarkerSize 1%float = 24%float.
Proof.
  intros Hs. unfold PointMarker.intrinsicIconSize, MapView.intrinsicLocationMarkerSize.
  split; [|split; [|split; reflexivity]].
  - apply clamp_between; try reflexivity.
    apply (div_of_finite _ _ false 5066549580791808%positive (-48)%Z); [reflexivity | exact Hs].
  - apply clamp_between; try reflexivity.
    apply (div_of_finite _ _ false 6755399441055744%positive (-48)%Z); [reflexivity | exact Hs].
Qed.

(** At the deepest zoom the icon would be 6 pixels and is held at 10. *)
Lemma marker_sizes_are_bounded_witness :
  within 10%float 60%float (PointMarker.intrinsicIconSize 3%float)
  /\ PointMarker.intrinsicIconSize 3%float = 10%float.
Proof.
  split; [|reflexivity].
  apply (marker_sizes_are_bounded 3%float). reflexivity.
Defined.

(** ** The category registry *)

Ltac break_conditionals :=
  repeat match goal with
         | |- context [if ?c then _ else _] => destruct c
         | |- context [match ?v with _ => _ end] => destruct v
         end.

Ltac spares_crush :=
  intros st; break_conditionals; unfold_actions; simpl; auto.

Lemma sparesRegistry_keeps (act : Action) (s : State) :
  sparesRegistry act -> registryInvariant s -> registryInvariant (after act s).
Proof.
  intros Hact [Hcat Hsel]. destruct (Hact s) as [Esel Ecat]. split.
  - destruct Ecat as [-> | ->]; auto.
  - rewrite Esel. exact Hsel.
Qed.

Lemma spares_handleKeyDown (snap : State) (key : string) :
  sparesRegistry (handleKeyDown snap key).
Proof. unfold handleKeyDown. spares_crush. Qed.

Lemma spares_handleToggleEditMode (snap : State) (pointIdToToggle : option string) :
  sparesRegistry (handleToggleEditMode snap pointIdToToggle).
Proof. unfold handleToggleEditMode. spares_crush. Qed.

Lemma spares_handlePointSelect (snap : State) (point : RecyclingPoint) :
  sparesRegistry (handlePointSelect snap point).
Proof. unfold handlePointSelect. spares_crush. Qed.

Lemma spares_handleInitiateAddPoint (snap : State) :
  sparesRegistry (handleInitiateAddPoint snap).
Proof. unfold handleInitiateAddPoint. spares_crush. Qed.

Lemma spares_handleChangeLocationStart (snap : State) :
  sparesRegistry (handleChangeLocationStart snap).
Proof. unfold handleChangeLocationStart. spares_crush. Qed.

Lemma spares_settled (b : Backend) (snap : State) (pointId : string) (newX newY : float)
    (newCategoryId : RecyclingCategoryEnum) (newName newDescription : string) :
  sparesRegistry (settle b (handlePointCoordinateChange snap pointId newX newY))
  /\ sparesRegistry (settle b (handlePointCategoryChange snap pointId newCategoryId))
  /\ sparesRegistry (settle b (handlePointNameChange snap pointId newName))
  /\ sparesRegistry (settle b (handlePointDescriptionChange snap pointId newDescription))
  /\ sparesRegistry (settle b (handleDeletePoint snap pointId))
  /\ sparesRegistry (settle b (handlePlaceNewPoint snap newX newY))
  /\ sparesRegistry (settle b fetchPoints).
Proof.
  unfold handlePointCoordinateChange, handlePointCategoryChange, handlePointNameChange,
    handlePointDescriptionChange, handleDeletePoint, handlePlaceNewPoint, fetchPoints.
  repeat match goal with |- _ /\ _ => split end;
    intros st; break_conditionals; simpl; break_conditionals;
    unfold_actions; simpl; auto.
Qed.

Lemma keeps_of_spares (pending : Async) :
  (forall b, sparesRegistry (settle b pending)) -> keeps registryInvariant pending.
Proof.
  intros H b s _ Hinv. apply sparesRegistry_keeps; auto.
Qed.

Lemma dispatch_registry (s : State) (scale : float) (ev : Event) (p : Async) :
  registryInvariant s -> dispatch s scale ev = Some p ->
  match p with
  | Return now => registryInvariant (after now s)
  | _ => keeps registryInvariant p
  end.
Proof.
  intros Hinv Hd.
  assert (Hasync : forall q : Async, (forall b, sparesRegistry (settle b q)) ->
            match q with
            | Return now => registryInvariant (after now s)
            | _ => keeps registryInvariant q
            end).
  { intros q Hq. pose proof (keeps_of_spares q Hq) as Hk.
    destruct q; auto. exact (Hk firestoreDown s eq_refl Hinv). }
  assert (Hsync : forall act, sparesRegistry act -> registryInvariant (after act s)).
  { intros act Hact. apply sparesRegistry_keeps; auto. }
  destruct ev; unfold dispatch in Hd.
  - injection Hd as <-. apply Hsync, spares_handleKeyDown.
  - destruct (pageRendered s); [|discriminate]. cbn [andb] in Hd.
    destruct (includes _ categoryId) eqn:E; [|discriminate]. injection Hd as <-.
    apply includes_In in E. destruct Hinv as [Hcat Hsel]. split; [exact Hcat|].
    intros c Hc. apply handleCategoryChange_membership in Hc.
    destruct checked; [destruct Hc as [Hc| ->]|destruct Hc as [Hc _]]; auto.
  - destruct (pageRendered s); [|discriminate]. injection Hd as <-.
    destruct Hinv as [Hcat _]. split; [exact Hcat|]. intros c Hc. exact Hc.
  - destruct (pageRendered s); [|discriminate]. injection Hd as <-.
    apply Hsync. unfold handleTrackMe. spares_crush.
  - injection Hd as <-. apply Hsync. unfold geolocationFound, geolocationFailed. spares_crush.
  - destruct (pageRendered s); [|discriminate]. cbn [andb] in Hd.
    destruct (includes _ value) eqn:E; [|discriminate]. injection Hd as <-.
    apply includes_In in E. destruct Hinv as [_ Hsel]. split; [right; exact E | exact Hsel].
  - destruct (_ && _); [|discriminate]. injection Hd as <-.
    apply Hsync, spares_handleInitiateAddPoint.
  - destruct (pageRendered s); [|discriminate].
    destruct (nth_error _ _) as [point|]; [|discriminate]. injection Hd as <-.
    apply Hsync. destruct (RecyclingMap.markerOnClick s);
      [apply spares_handlePointSelect | spares_crush].
  - destruct (pageRendered s); [|discriminate].
    destruct (RecyclingMap.handleMapClick s scale e); injection Hd as <-.
    + apply Hsync. spares_crush.
    + apply Hasync. intros b. apply (spares_settled b s "" newX newY "" "" "").
    + apply Hasync. intros b. apply (spares_settled b s pointId newX newY "" "" "").
  - destruct (pageRendered s); [|discriminate]. injection Hd as <-. apply Hsync. spares_crush.
  - destruct (pageRendered s); [|discriminate]. injection Hd as <-. apply Hsync. spares_crush.
  - destruct (pageRendered s); [|discriminate]. injection Hd as <-. apply Hsync. spares_crush.
  - destruct (dialogPoint s); [|discriminate]. injection Hd as <-.
    apply Hsync. unfold handleCloseDialog. spares_crush.
  - destruct (dialogPoint s) as [point|]; [|discriminate].
    destruct (negb _); [|discriminate]. injection Hd as <-.
    apply Hsync, spares_handleToggleEditMode.
  - destruct (dialogPoint s) as [point|]; [|discriminate].
    destruct (isCurrentlyEditingThisPoint s point); [|discriminate]. injection Hd as <-.
    apply Hsync. intros st. destruct (spares_handleToggleEditMode s None st) as [H1 H2].
    unfold after, andThen, toast in *.
    destruct (handleToggleEditMode s None st) as [s1 t1]. simpl in *. auto.
  - destruct (dialogPoint s) as [point|]; [|discriminate]. injection Hd as <-.
    apply Hsync. destruct (_ && _); [apply spares_handleToggleEditMode | spares_crush].
  - destruct (dialogPoint s) as [point|]; [|discriminate]. injection Hd as <-.
    apply Hsync. unfold handleProblemReportSubmit. spares_crush.
  - destruct (dialogPoint s) as [point|]; [|discriminate].
    destruct (isCurrentlyEditingThisPoint s point); [|discriminate]. injection Hd as <-.
    apply Hasync. intros b.
    apply (spares_settled b s (RecyclingPoint.id point) 0%float 0%float "" value "").
  - destruct (dialogPoint s) as [point|]; [|discriminate].
    destruct (isCurrentlyEditingThisPoint s point); [|discriminate]. injection Hd as <-.
    apply Hasync. intros b.
    apply (spares_settled b s (RecyclingPoint.id point) 0%float 0%float "" "" value).
  - destruct (dialogPoint s) as [point|]; [|discriminate].
    destruct (_ && _); [|discriminate]. injection Hd as <-.
    apply Hasync. intros b.
    apply (spares_settled b s (RecyclingPoint.id point) 0%float 0%float newCategoryId "" "").
  - destruct (dialogPoint s) as [point|]; [|discriminate].
    destruct (isCurrentlyEditingThisPoint s point); [|discriminate]. injection Hd as <-.
    apply Hsync, spares_handleChangeLocationStart.
  - destruct (dialogPoint s) as [point|]; [|discriminate].
    destruct (isCurrentlyEditingThisPoint s point); [|discriminate]. injection Hd as <-.
    apply Hasync. intros b.
    apply (spares_settled b s (RecyclingPoint.id point) 0%float 0%float "" "" "").
Qed.

Lemma reachable_registry (a : App) :
  reachable a -> registryInvariant (home a) /\ Forall (keeps registryInvariant) (inflight a).
Proof.
  induction 1 as [|a a' i Ha [Hinv Hfl] Hnext].
  - split.
    + split; [left; reflexivity | intros c Hc; exact Hc].
    + constructor; [|constructor]. apply keeps_of_spares. intros b.
      apply (spares_settled b initialState "" 0%float 0%float "" "" "").
  - destruct i as [ev | index b]; simpl in Hnext.
    + destruct (dispatch (home a) (currentScale a) ev) as [p|] eqn:Ed; [|discriminate].
      pose proof (dispatch_registry _ _ _ _ Hinv Ed) as Hp.
      destruct p; injection Hnext as <-; split; simpl; auto;
        apply Forall_app; split; auto.
    + destruct (backendOk b) eqn:Eb; [|discriminate].
      destruct (nth_error (inflight a) index) as [pending|] eqn:En; [|discriminate].
      injection Hnext as <-. split; simpl.
      * apply nth_error_In in En. rewrite Forall_forall in Hfl.
        exact (Hfl pending En b (home a) Eb Hinv).
      * apply removeNth_Forall, Hfl.
Qed.

(** ** What the page writes to the store *)

Lemma strictEq_eq (a : option string) (pointId : string) :
  strictEq a (Some pointId) = true -> a = Some pointId.
Proof.
  destruct a as [t|]; simpl; [|discriminate].
  intros H. apply String.eqb_eq in H. subst. reflexivity.
Qed.

(** Every service call an event issues, read off the event and the state:
    an insert comes from a click on the bare map in add-point mode; an update
    or a delete is for the id being edited, which the list has, and an update
    that is not a move leaves x and y alone. *)
Lemma dispatch_calls (s : State) (scale : float) (ev : Event) (p : Async) (call : StoreCall) :
  dispatch s scale ev = Some p -> In call (storeCalls p) ->
  match call with
  | CallGet => False
  | CallAdd pointData =>
      isAddingNewPointMode s = true
      /\ truthy (categoryForNewPoint s) = true
      /\ exists e rect_left rect_top,
           ev = MapClick e
           /\ RecyclingMap.mapContainer_rect e = Some (rect_left, rect_top)
           /\ pointData =
              PointData.mk "New Recycling Point" (categoryForNewPoint s)
                (fst (RecyclingMap.percentages scale rect_left rect_top e))
                (snd (RecyclingMap.percentages scale rect_left rect_top e)) ""
  | CallUpdate pointId updates =>
      editingPointId s = Some pointId
      /\ (exists q, findPoint (allPoints s) pointId = Some q)
      /\ ((exists e rect_left rect_top,
             ev = MapClick e
             /\ RecyclingMap.mapContainer_rect e = Some (rect_left, rect_top)
             /\ updates =
                Updates.mk None None
                  (Some (fst (RecyclingMap.percentages scale rect_left rect_top e)))
                  (Some (snd (RecyclingMap.percentages scale rect_left rect_top e))) None)
          \/ (Updates.x updates = None /\ Updates.y updates = None))
  | CallDelete pointId =>
      editingPointId s = Some pointId
      /\ (exists q, findPoint (allPoints s) pointId = Some q)
  end.
Proof.
  intros Hd Hin.
  destruct ev; unfold dispatch in Hd;
    try (injection Hd as <-; destruct Hin);
    try (destruct (pageRendered s && _); [injection Hd as <-; destruct Hin | discriminate]);
    try (destruct (pageRendered s); [|discriminate]).
  - injection Hd as <-. destruct Hin.
  - injection Hd as <-. destruct Hin.
  - destruct (nth_error _ _); [injection Hd as <-; destruct Hin | discriminate].
  - unfold RecyclingMap.handleMapClick in Hd.
    destruct (negb (RecyclingMap.viewportRef_current e));
      [injection Hd as <-; destruct Hin|].
    destruct (RecyclingMap.targetInMarker e); [injection Hd as <-; destruct Hin|].
    destruct (RecyclingMap.mapContainer_rect e) as [[rect_left rect_top]|] eqn:Erect;
      [|injection Hd as <-; destruct Hin].
    destruct (RecyclingMap.percentages scale rect_left rect_top e) as [px py] eqn:Epct.
    destruct (isAddingNewPointMode s) eqn:Eadd.
    + injection Hd as <-. unfold handlePlaceNewPoint in Hin. rewrite Eadd in Hin.
      cbn [negb orb] in Hin.
      destruct (truthy (categoryForNewPoint s)) eqn:Ecat; [|destruct Hin].
      destruct Hin as [<-|[]]. split; [reflexivity|]. split; [reflexivity|].
      exists e, rect_left, rect_top. rewrite Epct. auto.
    + destruct (editingPointId s) as [editing|] eqn:Eed;
        [|injection Hd as <-; destruct Hin].
      destruct (truthy editing && isSelectingLocation s);
        [|injection Hd as <-; destruct Hin].
      injection Hd as <-. unfold handlePointCoordinateChange in Hin.
      destruct (findPoint (allPoints s) editing) as [q|] eqn:Efind; [|destruct Hin].
      destruct Hin as [<-|[]]. split; [reflexivity|]. split; [eauto|].
      left. exists e, rect_left, rect_top. rewrite Epct. auto.
  - injection Hd as <-. destruct Hin.
  - injection Hd as <-. destruct Hin.
  - injection Hd as <-. destruct Hin.
  - destruct (dialogPoint s); [injection Hd as <-; destruct Hin | discriminate].
  - destruct (dialogPoint s); [|discriminate].
    destruct (negb _); [injection Hd as <-; destruct Hin | discriminate].
  - destruct (dialogPoint s) as [point|]; [|discriminate].
    destruct (isCurrentlyEditingThisPoint s point);
      [injection Hd as <-; destruct Hin | discriminate].
  - destruct (dialogPoint s); [injection Hd as <-; destruct Hin | discriminate].
  - destruct (dialogPoint s); [injection Hd as <-; destruct Hin | discriminate].
  - destruct (dialogPoint s) as [point|]; [|discriminate].
    destruct (isCurrentlyEditingThisPoint s point) eqn:Eed; [|discriminate].
    apply strictEq_eq in Eed. injection Hd as <-. unfold handlePointNameChange in Hin.
    destruct (findPoint _ _) as [q|] eqn:Efind; [|destruct Hin].
    destruct Hin as [<-|[]]. split; [exact Eed|]. split; [eauto|]. right. auto.
  - destruct (dialogPoint s) as [point|]; [|discriminate].
    destruct (isCurrentlyEditingThisPoint s point) eqn:Eed; [|discriminate].
    apply strictEq_eq in Eed. injection Hd as <-.
    unfold handlePointDescriptionChange in Hin.
    destruct (findPoint _ _) as [q|] eqn:Efind; [|destruct Hin].
    destruct Hin as [<-|[]]. split; [exact Eed|]. split; [eauto|]. right. auto.
  - destruct (dialogPoint s) as [point|]; [|discriminate].
    destruct (isCurrentlyEditingThisPoint s point) eqn:Eed; [|discriminate].
    cbn [andb] in Hd. destruct (includes _ _); [|discriminate].
    apply strictEq_eq in Eed. injection Hd as <-.
    unfold handlePointCategoryChange in Hin.
    destruct (findPoint _ _) as [q|] eqn:Efind; [|destruct Hin].
    destruct Hin as [<-|[]]. split; [exact Eed|]. split; [eauto|]. right. auto.
  - destruct (dialogPoint s) as [point|]; [|discriminate].
    destruct (isCurrentlyEditingThisPoint s point);
      [injection Hd as <-; destruct Hin | discriminate].
  - destruct (dialogPoint s) as [point|]; [|discriminate].
    destruct (isCurrentlyEditingThisPoint s point) eqn:Eed; [|discriminate].
    apply strictEq_eq in Eed. injection Hd as <-. unfold handleDeletePoint in Hin.
    destruct (findPoint _ _) as [q|] eqn:Efind; [|destruct Hin].
    destruct Hin as [<-|[]]. split; [exact Eed|]. eauto.
Qed.

(** X3.  On every reachable page only points whose category is one of the
    registry's six are on the map; a point that carries the mapper's default
    category "unknown" is in no filtered list. *)
Theorem only_registry_categories_are_shown (a : App) (p : RecyclingPoint) :
  reachable a ->
  In p (filteredPoints (home a)) ->
  In (RecyclingPoint.category p) categoryIds
  /\ RecyclingPoint.category p <> "unknown".
Proof.
  intros Hreach Hin. destruct (reachable_registry a Hreach) as [[_ Hsel] _].
  rewrite filteredPoints_filter in Hin. apply filter_In in Hin as [_ Hc].
  apply includes_In, Hsel in Hc. split; [exact Hc|].
  intros E. rewrite E in Hc. simpl in Hc.
  repeat (destruct Hc as [Hc|Hc]; [discriminate|]). exact Hc.
Qed.

(** The glass bank is on the map of the loaded page. *)
Lemma only_registry_categories_are_shown_witness :
  In "glass" categoryIds /\ "glass" <> "unknown".
Proof.
  apply (only_registry_categories_are_shown (mkApp idlePage 1%float []) glassBank).
  - apply (feed_reachable [Settles 0 firestoreUp] mounted); [constructor | reflexivity].
  - simpl. auto.
Defined.

(** X4.  On every reachable page, whatever the event, an insert sent to the
    store carries the default name, an empty description and a category of the
    registry. *)
Theorem inserts_carry_a_registry_category (a : App) (ev : Event) (p : Async)
    (pointData : PointData.t) :
  reachable a ->
  dispatch (home a) (currentScale a) ev = Some p ->
  In (CallAdd pointData) (storeCalls p) ->
  PointData.name pointData = "New Recycling Point"
  /\ PointData.description pointData = ""
  /\ In (PointData.category pointData) categoryIds.
Proof.
  intros Hreach Hd Hin.
  destruct (dispatch_calls _ _ _ _ _ Hd Hin) as [_ [Hcat [e [l [t [_ [_ ->]]]]]]].
  simpl. split; [reflexivity|]. split; [reflexivity|].
  destruct (reachable_registry a Hreach) as [[[E|Hreg] _] _]; [|exact Hreg].
  rewrite E in Hcat. discriminate.
Qed.

(** A glass point placed by a click on the map. *)
Lemma inserts_carry_a_registry_category_witness :
  In "glass" categoryIds.
Proof.
  apply (inserts_carry_a_registry_category (mkApp addingGlassPoint 1%float [])
           (MapClick (clickAt 1234%float 987%float))
           (handlePlaceNewPoint addingGlassPoint 50%float 50%float)
           (PointData.mk "New Recycling Point" "glass" 50%float 50%float "")).
  - apply (feed_reachable addingInputs mounted); [constructor | reflexivity].
  - reflexivity.
  - simpl. auto.
Defined.

(** X5.  On every reachable page, a click with finite coordinates sends the
    store only coordinates within [0, 100], whether it places a new point or
    moves the edited one. *)
Theorem map_clicks_write_percentages (a : App) (e : RecyclingMap.MouseEvent)
    (p : Async) (call : StoreCall) :
  reachable a ->
  finiteClick e ->
  dispatch (home a) (currentScale a) (MapClick e) = Some p ->
  In call (storeCalls p) ->
  callInRange call.
Proof.
  intros Hreach [Hcx [Hcy Hrect]] Hd Hin.
  destruct (zoomLevels_closed _ (reachable_zoomLevels a Hreach))
    as [_ [_ [_ [_ [Hw [Hwf [Hh Hhf]]]]]]].
  assert (Hrange : forall l t,
             RecyclingMap.mapContainer_rect e = Some (l, t) ->
             within 0%float 100%float
               (fst (RecyclingMap.percentages (currentScale a) l t e))
             /\ within 0%float 100%float
               (snd (RecyclingMap.percentages (currentScale a) l t e))).
  { intros l t E. rewrite E in Hrect. destruct Hrect as [Hl Ht].
    unfold RecyclingMap.percentages, within. cbn [fst snd].
    split; apply clamp_range, rawPercent_is_number; assumption. }
  pose proof (dispatch_calls _ _ _ _ _ Hd Hin) as H.
  destruct call as [|pointData|pointId updates|pointId]; simpl; auto.
  - destruct H as [_ [_ [e' [l [t [[= <-] [Erect ->]]]]]]]. simpl. apply Hrange, Erect.
  - destruct H as [_ [_ [[e' [l [t [[= <-] [Erect ->]]]]] | [Ex Ey]]]].
    + simpl. destruct (Hrange l t Erect). split; intros v [= <-]; assumption.
    + rewrite Ex, Ey. split; intros v; discriminate.
Qed.

(** A click far outside the map while a glass point is to be placed: the
    insert carries x = 0 and y = 100. *)
Lemma map_clicks_write_percentages_witness :
  callInRange (CallAdd (PointData.mk "New Recycling Point" "glass" 0%float 100%float "")).
Proof.
  apply (map_clicks_write_percentages (mkApp addingGlassPoint 1%float [])
           (clickAt 0%float 5000%float)
           (handlePlaceNewPoint addingGlassPoint 0%float 100%float)).
  - apply (feed_reachable addingInputs mounted); [constructor | reflexivity].
  - repeat split.
  - reflexivity.
  - simpl. auto.
Defined.

(** X6.  From any state, whatever the event, an update or a delete sent to
    the store is for the id being edited, and the local list has a point with
    that id. *)
Theorem writes_target_the_edited_point (s : State) (scale : float) (ev : Event)
    (p : Async) (pointId : string) :
  dispatch s scale ev = Some p ->
  ((exists updates, In (CallUpdate pointId updates) (storeCalls p))
   \/ In (CallDelete pointId) (storeCalls p)) ->
  editingPointId s = Some pointId
  /\ exists q, In q (allPoints s) /\ RecyclingPoint.id q = pointId.
Proof.
  intros Hd [[updates Hin] | Hin];
    pose proof (dispatch_calls _ _ _ _ _ Hd Hin) as H; simpl in H.
  - destruct H as [Hed [[q Hq] _]]. split; [exact Hed|].
    exists q. apply findPoint_some, Hq.
  - destruct H as [Hed [q Hq]]. split; [exact Hed|].
    exists q. apply findPoint_some, Hq.
Qed.

(** Confirming the deletion of the glass bank while it is edited. *)
Lemma writes_target_the_edited_point_witness :
  editingPointId editingGlassBank = Some "p1"
  /\ exists q, In q (allPoints editingGlassBank) /\ RecyclingPoint.id q = "p1".
Proof.
  apply (writes_target_the_edited_point editingGlassBank 1%float DialogDeleteConfirmed
           (handleDeletePoint editingGlassBank "p1") "p1").
  - reflexivity.
  - right. simpl. auto.
Defined.



(** ** Edit mode *)

(** X8.  Toggling edit mode, from any state.  With [null] it always ends
    with no point edited, no location being picked and add-point mode off,
    the list and the dialog's point untouched.  With the id already edited
    (and no location being picked) it leaves edit mode and keeps the dialog's
    point.  With any other id it edits that id and puts the list's current
    point of that id in the dialog (none if the list has none).  So toggling
    an id that is not being edited twice in a row ends outside edit mode. *)
Theorem toggle_edit_mode (s : State) (pointId : string) :
  let off := after (handleToggleEditMode s None) s in
  let on := after (handleToggleEditMode s (Some pointId)) s in
  (editingPointId off = None /\ isSelectingLocation off = false
   /\ isAddingNewPointMode off = false
   /\ allPoints off = allPoints s /\ selectedPoint off = selectedPoint s)
  /\ (editingPointId s = Some pointId -> isSelectingLocation s = false ->
      editingPointId on = None /\ selectedPoint on = selectedPoint s
      /\ isSelectingLocation on = false /\ isAddingNewPointMode on = false)
  /\ ((editingPointId s <> Some pointId \/ isSelectingLocation s = true) ->
      editingPointId on = Some pointId
      /\ selectedPoint on = findPoint (allPoints s) pointId
      /\ isSelectingLocation on = false /\ isAddingNewPointMode on = false)
  /\ (editingPointId s <> Some pointId ->
      editingPointId (after (handleToggleEditMode on (Some pointId)) on) = None).
Proof.
  intros off on. subst off on. unfold handleToggleEditMode.
  assert (Hself : strictEq (Some pointId) (Some pointId) = true)
    by (simpl; apply String.eqb_refl).
  assert (Hother : editingPointId s <> Some pointId ->
                   strictEq (editingPointId s) (Some pointId) = false).
  { intros Hne. destruct (strictEq (editingPointId s) (Some pointId)) eqn:E; [|reflexivity].
    apply strictEq_eq in E. contradiction. }
  split; [|split; [|split]].
  - destruct (editingPointId s) as [e|]; destruct (isSelectingLocation s) eqn:Eloc;
      simpl; unfold_actions; simpl; auto.
  - intros Hed Hloc. rewrite Hed, Hloc, Hself. unfold_actions. simpl. repeat split; auto.
  - intros [Hne | Hloc].
    + rewrite (Hother Hne). unfold_actions. simpl. repeat split.
    + rewrite Hloc, andb_false_r. unfold_actions. simpl. repeat split.
  - intros Hne. rewrite (Hother Hne). unfold_actions. simpl.
    rewrite String.eqb_refl. reflexivity.
Qed.

(** The glass bank is being edited; the edit button of the paper bin's
    dialog would switch to it. *)
Lemma toggle_edit_mode_witness :
  editingPointId (after (handleToggleEditMode editingGlassBank (Some "p2")) editingGlassBank)
    = Some "p2"
  /\ selectedPoint (after (handleToggleEditMode editingGlassBank (Some "p2")) editingGlassBank)
     = Some paperBin.
Proof.
  destruct (toggle_edit_mode editingGlassBank "p2") as [_ [_ [H _]]].
  destruct H as [H1 [H2 _]].
  - left. discriminate.
  - split; [exact H1 | exact H2].
Defined.

(** ** Clicking a marker *)

(** X9.  A click on a visible marker, from any state, changes at most the
    dialog's point and sends nothing to the store.  In add-point mode it does
    nothing at all; while a location is picked, or while another point is
    edited, it only shows a notice; otherwise it puts the clicked point in the
    dialog. *)
Theorem marker_click_only_selects (s : State) (scale : float) (index : nat)
    (point : RecyclingPoint) :
  pageRendered s = true ->
  nth_error (filteredPoints s) index = Some point ->
  exists now,
    dispatch s scale (MarkerClick index) = Some (Return now)
    /\ now s =
       if isAddingNewPointMode s then (s, [])
       else if isSelectingLocation s then (s, ["Location Selection Active"])
       else if truthyId (editingPointId s)
               && negb (strictEq (editingPointId s) (Some (RecyclingPoint.id point)))
       then (s, ["Edit Mode Active"])
       else (after (setSelectedPoint (Some point)) s, []).
Proof.
  intros Hpage Hnth. unfold dispatch. rewrite Hpage, Hnth. eexists. split; [reflexivity|].
  unfold RecyclingMap.markerOnClick, handlePointSelect.
  destruct (isAddingNewPointMode s), (isSelectingLocation s); simpl; try reflexivity.
  rewrite andb_true_r.
  destruct (truthyId (editingPointId s)
            && negb (strictEq (editingPointId s) (Some (RecyclingPoint.id point))));
    reflexivity.
Qed.

(** Clicking the paper bin's marker while the glass bank is edited. *)
Lemma marker_click_only_selects_witness :
  exists now,
    dispatch editingGlassBank 1%float (MarkerClick 1) = Some (Return now)
    /\ now editingGlassBank = (editingGlassBank, ["Edit Mode Active"]).
Proof.
  apply (marker_click_only_selects editingGlassBank 1%float 1 paperBin); reflexivity.
Defined.

(** ** Filter checkboxes *)

Lemma includes_app (l : list string) (c v : string) :
  includes (l ++ [c]) v = includes l v || String.eqb c v.
Proof.
  unfold includes. rewrite existsb_app. simpl. rewrite orb_false_r. reflexivity.
Qed.

(** X10.  Ticking a category that is already selected adds a duplicate to
    the selection and shows the same points as before.  Unticking removes every
    copy: no point of that category is shown afterwards, ticking then
    unticking amounts to unticking, and ticking it again shows each of its
    points. *)
Theorem filter_checkbox_duplicates (s : State) (c : RecyclingCategoryEnum) :
  let ticked := after (handleCategoryChange c true) s in
  let unticked := after (handleCategoryChange c false) s in
  (In c (selectedCategories s) ->
   List.length (selectedCategories ticked) = S (List.length (selectedCategories s))
   /\ filteredPoints ticked = filteredPoints s)
  /\ (forall p, In p (filteredPoints unticked) -> RecyclingPoint.category p <> c)
  /\ after (handleCategoryChange c false) ticked = unticked
  /\ (forall p, In p (allPoints s) -> RecyclingPoint.category p = c ->
                In p (filteredPoints (after (handleCategoryChange c true) unticked))).
Proof.
  intros ticked unticked. subst ticked unticked.
  split; [|split; [|split]].
  - intros Hin. split.
    + unfold handleCategoryChange. unfold_actions. simpl.
      rewrite length_app. simpl. rewrite Nat.add_comm. reflexivity.
    + rewrite !filteredPoints_filter. unfold handleCategoryChange. unfold_actions. simpl.
      apply filter_ext. intros p. rewrite includes_app.
      destruct (String.eqb c (RecyclingPoint.category p)) eqn:E; [|apply orb_false_r].
      apply String.eqb_eq in E. subst c. apply includes_In in Hin. rewrite Hin. reflexivity.
  - intros p Hp. rewrite filteredPoints_filter in Hp. apply filter_In in Hp as [_ Hp].
    apply includes_In, handleCategoryChange_membership in Hp. apply Hp.
  - unfold handleCategoryChange. unfold_actions. simpl.
    rewrite filter_app. simpl. rewrite String.eqb_refl. simpl. rewrite app_nil_r.
    reflexivity.
  - intros p Hp <-. rewrite filteredPoints_filter. apply filter_In. split.
    + unfold handleCategoryChange. unfold_actions. simpl. exact Hp.
    + apply includes_In, handleCategoryChange_membership. right. reflexivity.
Qed.

(** Glass is selected on the loaded page: ticking it again shows the same
    two points. *)
Lemma filter_checkbox_duplicates_witness :
  List.length (selectedCategories (after (handleCategoryChange "glass" true) idlePage)) = 7
  /\ filteredPoints (after (handleCategoryChange "glass" true) idlePage)
     = filteredPoints idlePage.
Proof.
  apply (filter_checkbox_duplicates idlePage "glass").
  simpl. auto.
Defined.

(** ** Placing a point: guard, failure, cancellation *)

(** X11.  Outside add-point mode, or with no category pending, the
    placement handler sends nothing and changes nothing.  In add-point mode
    with a category, a failed insert leaves the list, the dialog's point and
    the edited id as they were, and leaves add-point mode with the pending
    category emptied. *)
Theorem placement_adds_nothing_unless_stored (s : State) (b : Backend) (newX newY : float) :
  let s' := fst (run b (fun snap => handlePlaceNewPoint snap newX newY) s) in
  ((isAddingNewPointMode s = false \/ categoryForNewPoint s = "") ->
   storeCalls (handlePlaceNewPoint s newX newY) = []
   /\ run b (fun snap => handlePlaceNewPoint snap newX newY) s = (s, []))
  /\ (isAddingNewPointMode s = true -> categoryForNewPoint s <> "" ->
      (db b = false \/ exists message, addDoc b = Rejected message) ->
      allPoints s' = allPoints s
      /\ selectedPoint s' = selectedPoint s
      /\ editingPointId s' = editingPointId s
      /\ isAddingNewPointMode s' = false
      /\ categoryForNewPoint s' = "").
Proof.
  intros s'. subst s'. unfold run, handlePlaceNewPoint. split.
  - intros [-> | ->]; simpl; [auto|]. rewrite orb_true_r. auto.
  - intros -> Hcat Hfail.
    assert (Ht : truthy (categoryForNewPoint s) = true).
    { unfold truthy. apply negb_true_iff, String.eqb_neq, Hcat. }
    rewrite Ht. cbn [negb orb settle]. unfold Service.addRecyclingPointToDB.
    destruct Hfail as [-> | [message ->]]; [|destruct (db b)]; unfold_actions; simpl;
      repeat split.
Qed.

(** A glass point is to be placed and the store is down. *)
Lemma placement_adds_nothing_unless_stored_witness :
  allPoints (fst (run firestoreDown (fun snap => handlePlaceNewPoint snap 1%float 2%float)
                    addingGlassPoint)) = [glassBank; paperBin].
Proof.
  destruct (placement_adds_nothing_unless_stored addingGlassPoint firestoreDown
              1%float 2%float) as [_ H].
  destruct H as [H _].
  - reflexivity.
  - discriminate.
  - right. eexists. reflexivity.
  - exact H.
Defined.

(** X12.  Cancelling does not abort a call in flight.  A click places a new
    point and, before the insert settles, Escape leaves add-point mode; when
    the insert then succeeds, the point is still appended to the list, put in
    the dialog and edited, under the category that was pending at the click. *)
Theorem escape_does_not_abort_a_pending_insert (s : State) (b : Backend)
    (newX newY : float) (docId : string) :
  isAddingNewPointMode s = true ->
  categoryForNewPoint s <> "" ->
  db b = true -> addDoc b = Fulfilled docId ->
  let pending := handlePlaceNewPoint s newX newY in
  let cancelled := after (handleKeyDown s "Escape") s in
  let settled := after (settle b pending) cancelled in
  let added :=
    RecyclingPoint.mk docId "New Recycling Point" (categoryForNewPoint s) newX newY "" in
  storeCalls pending
    = [CallAdd (PointData.mk "New Recycling Point" (categoryForNewPoint s) newX newY "")]
  /\ isAddingNewPointMode cancelled = false
  /\ categoryForNewPoint cancelled = ""
  /\ allPoints settled = allPoints s ++ [added]
  /\ selectedPoint settled = Some added
  /\ editingPointId settled = Some docId.
Proof.
  intros Hadd Hcat Hdb Hdoc pending cancelled settled added.
  subst pending cancelled settled added.
  assert (Ht : truthy (categoryForNewPoint s) = true).
  { unfold truthy. apply negb_true_iff, String.eqb_neq, Hcat. }
  unfold handlePlaceNewPoint, handleKeyDown. rewrite Hadd, Ht.
  cbn [negb orb settle storeCalls]. unfold Service.addRecyclingPointToDB.
  rewrite Hdb, Hdoc. simpl. unfold_actions. simpl. repeat split.
Qed.

(** A glass point placed at (50, 50), Escape pressed, then the store
    answers with the id "p3". *)
Lemma escape_does_not_abort_a_pending_insert_witness :
  editingPointId
    (after (settle firestoreUp (handlePlaceNewPoint addingGlassPoint 50%float 50%float))
       (after (handleKeyDown addingGlassPoint "Escape") addingGlassPoint))
  = Some "p3".
Proof.
  apply (escape_does_not_abort_a_pending_insert addingGlassPoint firestoreUp
           50%float 50%float "p3"); try reflexivity.
  discriminate.
Defined.

(** ** Edits in flight together *)

Lemma replacePoint_twice (pointId : string) (first second : RecyclingPoint)
    (points : list RecyclingPoint) :
  RecyclingPoint.id first = pointId ->
  replacePoint pointId second (replacePoint pointId first points)
  = replacePoint pointId second points.
Proof.
  intros Hid. unfold replacePoint. rewrite map_map. apply map_ext. intros p.
  destruct (String.eqb (RecyclingPoint.id p) pointId) eqn:E; [|rewrite E; reflexivity].
  rewrite Hid, String.eqb_refl. reflexivity.
Qed.

(** A rename or a change of category that settles successfully replaces,
    in the list current at that time, every entry of that id by the point
    built when the handler was called. *)
Lemma settled_edit_replaces (snap st : State) (b : Backend) (pointId : string)
    (pointToUpdate : RecyclingPoint) (newName : string)
    (newCategoryId : RecyclingCategoryEnum) :
  findPoint (allPoints snap) pointId = Some pointToUpdate ->
  db b = true -> updateDoc b = Fulfilled tt ->
  allPoints (after (settle b (handlePointNameChange snap pointId newName)) st)
  = replacePoint pointId
      (RecyclingPoint.mk (RecyclingPoint.id pointToUpdate) newName
         (RecyclingPoint.category pointToUpdate) (RecyclingPoint.x pointToUpdate)
         (RecyclingPoint.y pointToUpdate) (RecyclingPoint.description pointToUpdate))
      (allPoints st)
  /\ allPoints (after (settle b (handlePointCategoryChange snap pointId newCategoryId)) st)
     = replacePoint pointId
         (RecyclingPoint.mk (RecyclingPoint.id pointToUpdate)
            (RecyclingPoint.name pointToUpdate) newCategoryId
            (RecyclingPoint.x pointToUpdate) (RecyclingPoint.y pointToUpdate)
            (RecyclingPoint.description pointToUpdate))
         (allPoints st).
Proof.
  intros Hfind Hdb Hdoc. unfold handlePointNameChange, handlePointCategoryChange.
  rewrite Hfind. cbn [settle]. unfold Service.updateRecyclingPointInDB. rewrite Hdb, Hdoc.
  cbn [negb]. unfold_actions. simpl. destruct (isSelected snap pointId); split; reflexivity.
Qed.

(** X13.  Two edits of one point issued from the same render, a rename and
    then a change of category, both stored successfully: each builds its
    point from the render's copy, so once both have settled the list entry has
    the new category and the old name again.  The later settlement overwrites
    the earlier one locally, whatever the state they settle in. *)
Theorem later_edit_overwrites_earlier (snap st : State) (b : Backend) (pointId : string)
    (pointToUpdate : RecyclingPoint) (newName : string)
    (newCategoryId : RecyclingCategoryEnum) :
  findPoint (allPoints snap) pointId = Some pointToUpdate ->
  db b = true -> updateDoc b = Fulfilled tt ->
  let rename := handlePointNameChange snap pointId newName in
  let recategorise := handlePointCategoryChange snap pointId newCategoryId in
  let st' := after (settle b recategorise) (after (settle b rename) st) in
  storeCalls rename = [CallUpdate pointId (Updates.mk (Some newName) None None None None)]
  /\ storeCalls recategorise
     = [CallUpdate pointId (Updates.mk None (Some newCategoryId) None None None)]
  /\ allPoints st' =
     replacePoint pointId
       (RecyclingPoint.mk (RecyclingPoint.id pointToUpdate)
          (RecyclingPoint.name pointToUpdate) newCategoryId
          (RecyclingPoint.x pointToUpdate) (RecyclingPoint.y pointToUpdate)
          (RecyclingPoint.description pointToUpdate))
       (allPoints st)
  /\ (forall q, In q (allPoints st') -> RecyclingPoint.id q = pointId ->
      RecyclingPoint.name q = RecyclingPoint.name pointToUpdate
      /\ RecyclingPoint.category q = newCategoryId).
Proof.
  intros Hfind Hdb Hdoc rename recategorise st'. subst rename recategorise st'.
  destruct (findPoint_some _ _ _ Hfind) as [_ Hid].
  rewrite (proj2 (settled_edit_replaces snap _ b pointId pointToUpdate newName newCategoryId
                    Hfind Hdb Hdoc)).
  rewrite (proj1 (settled_edit_replaces snap st b pointId pointToUpdate newName newCategoryId
                    Hfind Hdb Hdoc)).
  rewrite replacePoint_twice by exact Hid.
  unfold handlePointNameChange, handlePointCategoryChange. rewrite Hfind.
  split; [reflexivity|]. split; [reflexivity|]. split; [reflexivity|].
  intros q Hq Hqid. apply replacePoint_In in Hq as [[-> _] | [_ Hne]];
    [simpl; auto | contradiction].
Qed.

(** The glass bank renamed and then moved to the paper category before
    either update has settled: afterwards it is called "Glass bank" again. *)
Lemma later_edit_overwrites_earlier_witness :
  allPoints
    (after (settle firestoreUp (handlePointCategoryChange editingGlassBank "p1" "paper"))
       (after (settle firestoreUp (handlePointNameChange editingGlassBank "p1" "Bottle bank"))
          editingGlassBank))
  = [RecyclingPoint.mk "p1" "Glass bank" "paper" 10%float 20%float "By the square";
     paperBin].
Proof.
  refine (proj1 (proj2 (proj2
            (later_edit_overwrites_earlier editingGlassBank editingGlassBank firestoreUp
               "p1" glassBank "Bottle bank" "paper" eq_refl eq_refl eq_refl)))).
Defined.

(** ** Cursor and centring *)

(** X14.  The map shows the crosshair cursor exactly when a click on the
    bare map would call a placement callback: in add-point mode, or while a
    location is picked for an edited point.  Otherwise it shows a grab
    cursor. *)
Theorem crosshair_means_a_click_places (props : State) (scale : float)
    (e : RecyclingMap.MouseEvent) (isPanning : bool) (rect_left rect_top : float) :
  RecyclingMap.viewportRef_current e = true ->
  RecyclingMap.targetInMarker e = false ->
  RecyclingMap.mapContainer_rect e = Some (rect_left, rect_top) ->
  (MapView.getCursorStyle props isPanning = "cursor-crosshair" <->
   RecyclingMap.handleMapClick props scale e <> RecyclingMap.NoCallback)
  /\ (MapView.getCursorStyle props isPanning <> "cursor-crosshair" ->
      MapView.getCursorStyle props isPanning
      = if isPanning then "cursor-grabbing" else "cursor-grab").
Proof.
  intros Hview Hmarker Hrect.
  unfold MapView.getCursorStyle, RecyclingMap.handleMapClick.
  rewrite Hview, Hmarker, Hrect. cbn [negb].
  destruct (RecyclingMap.percentages scale rect_left rect_top e) as [px py].
  destruct (isAddingNewPointMode props); cbn [orb].
  - split; [split; [discriminate | reflexivity] | intros H; exfalso; apply H; reflexivity].
  - destruct (editingPointId props) as [editing|]; cbn [truthyId andb].
    + destruct (truthy editing && isSelectingLocation props).
      * split; [split; [discriminate | reflexivity]
               | intros H; exfalso; apply H; reflexivity].
      * split; [|reflexivity]. split; [|intros H; exfalso; apply H; reflexivity].
        destruct isPanning; discriminate.
    + split; [|reflexivity]. split; [|intros H; exfalso; apply H; reflexivity].
      destruct isPanning; discriminate.
Qed.

(** While the glass bank is relocated the cursor is the crosshair. *)
Lemma crosshair_means_a_click_places_witness :
  RecyclingMap.handleMapClick relocatingGlassBank 1%float (clickAt 1234%float 987%float)
  <> RecyclingMap.NoCallback.
Proof.
  apply (crosshair_means_a_click_places relocatingGlassBank 1%float
           (clickAt 1234%float 987%float) false 234%float 237%float);
    reflexivity.
Defined.

(** X15.  On every reachable page, centring a mounted viewport of finite
    size assigns scroll offsets that are numbers and not negative; with no
    viewport mounted it assigns nothing. *)
Theorem centering_never_scrolls_negative (a : App) (viewportWidth viewportHeight : float) :
  reachable a ->
  PrimFloat.is_finite viewportWidth = true ->
  PrimFloat.is_finite viewportHeight = true ->
  MapView.centerMap None (currentScale a) = None
  /\ exists scrollLeft scrollTop,
       MapView.centerMap (Some (viewportWidth, viewportHeight)) (currentScale a)
       = Some (scrollLeft, scrollTop)
       /\ (0 <=? scrollLeft)%float = true /\ (0 <=? scrollTop)%float = true.
Proof.
  intros Hreach Hw Hh. split; [reflexivity|].
  destruct (zoomLevels_closed _ (reachable_zoomLevels a Hreach))
    as [_ [_ [_ [_ [Hiw [Hiwf [Hih Hihf]]]]]]].
  unfold MapView.centerMap. eexists. eexists. split; [reflexivity|].
  assert (Hnum : forall size v,
             (0 <? size)%float = true -> (size <? infinity)%float = true ->
             PrimFloat.is_finite v = true ->
             PrimFloat.is_nan ((size - v) / 2)%float = false).
  { intros size v Hpos Hfin Hv. destruct (positive_finite _ Hpos Hfin) as [m [e Hd]].
    apply spec_not_nan. rewrite div_spec, sub_spec, Hd.
    replace (Prim2SF 2) with (S754_finite false 4503599627370496 (-51)) by reflexivity.
    apply SFdiv_not_nan, SFsub_not_nan; [exact I | apply finite_is_number, Hv]. }
  split; apply max_facts; try reflexivity; apply Hnum; assumption.
Qed.

(** A viewport 800 wide and 600 high over the unscaled map is scrolled to
    (600, 450). *)
Lemma centering_never_scrolls_negative_witness :
  exists scrollLeft scrollTop,
    MapView.centerMap (Some (800%float, 600%float)) 1%float = Some (scrollLeft, scrollTop)
    /\ (0 <=? scrollLeft)%float = true /\ (0 <=? scrollTop)%float = true.
Proof.
  apply (centering_never_scrolls_negative (mkApp idlePage 1%float []) 800%float 600%float).
  - apply (feed_reachable [Settles 0 firestoreUp] mounted); [constructor | reflexivity].
  - reflexivity.
  - reflexivity.
Defined.

(** ** The service *)

(** X16.  A service call succeeds exactly when the database handle is
    initialised and the Firestore call is fulfilled.  An added point is then
    the given data under the id Firestore assigned.  Without a handle every
    call is rejected, however Firestore would have answered. *)
Theorem service_succeeds_with_handle_and_firestore (dbOk : bool) (pointId : string)
    (pointData : PointData.t) (updates : Updates.t)
    (addDoc : Settled string) (updateDoc deleteDoc : Settled unit)
    (getDocs : Settled (list Service.QueryDocumentSnapshot)) :
  (forall p, Service.addRecyclingPointToDB dbOk pointData addDoc = Fulfilled p <->
             dbOk = true /\ exists docId, addDoc = Fulfilled docId /\ p = withId docId pointData)
  /\ (Service.updateRecyclingPointInDB dbOk pointId updates updateDoc = Fulfilled tt <->
      dbOk = true /\ exists u, updateDoc = Fulfilled u)
  /\ (Service.deleteRecyclingPointFromDB dbOk pointId deleteDoc = Fulfilled tt <->
      dbOk = true /\ exists u, deleteDoc = Fulfilled u)
  /\ (forall points, Service.getRecyclingPointsFromDB dbOk getDocs = Fulfilled points <->
      dbOk = true /\ exists docs, getDocs = Fulfilled docs
                                  /\ points = map Service.mapDocToRecyclingPoint docs)
  /\ (dbOk = false ->
      exists m1 m2 m3 m4,
        Service.addRecyclingPointToDB dbOk pointData addDoc = Rejected m1
        /\ Service.updateRecyclingPointInDB dbOk pointId updates updateDoc = Rejected m2
        /\ Service.deleteRecyclingPointFromDB dbOk pointId deleteDoc = Rejected m3
        /\ Service.getRecyclingPointsFromDB dbOk getDocs = Rejected m4).
Proof.
  unfold Service.addRecyclingPointToDB, Service.updateRecyclingPointInDB,
    Service.deleteRecyclingPointFromDB, Service.getRecyclingPointsFromDB.
  repeat match goal with |- _ /\ _ => split end.
  - intros p. destruct dbOk; simpl.
    + destruct addDoc as [docId|m]; split.
      * intros [= <-]. eauto.
      * intros [_ [d [[= <-] ->]]]. reflexivity.
      * discriminate.
      * intros [_ [d [H _]]]. discriminate.
    + split; [discriminate | intros [H _]; discriminate].
  - destruct dbOk; simpl.
    + destruct updateDoc as [u|m]; split; eauto; try discriminate.
      intros [_ [u [= ]]].
    + split; [discriminate | intros [H _]; discriminate].
  - destruct dbOk; simpl.
    + destruct deleteDoc as [u|m]; split; eauto; try discriminate.
      intros [_ [u [= ]]].
    + split; [discriminate | intros [H _]; discriminate].
  - intros points. destruct dbOk; simpl.
    + destruct getDocs as [docs|m]; split.
      * intros [= <-]. eauto.
      * intros [_ [d [[= <-] ->]]]. reflexivity.
      * discriminate.
      * intros [_ [d [H _]]]. discriminate.
    + split; [discriminate | intros [H _]; discriminate].
  - intros ->. simpl. eauto 10.
Qed.

(** With no database handle an insert is rejected although Firestore would
    have accepted it. *)
Lemma service_succeeds_with_handle_and_firestore_witness :
  exists m1 m2 m3 m4,
    Service.addRecyclingPointToDB false
      (PointData.mk "New Recycling Point" "glass" 1%float 2%float "") (Fulfilled "p3")
      = Rejected m1
    /\ Service.updateRecyclingPointInDB false "p1" (Updates.mk None None None None None)
         (Fulfilled tt) = Rejected m2
    /\ Service.deleteRecyclingPointFromDB false "p1" (Fulfilled tt) = Rejected m3
    /\ Service.getRecyclingPointsFromDB false (Fulfilled [strayDoc]) = Rejected m4.
Proof.
  apply (service_succeeds_with_handle_and_firestore false "p1").
  reflexivity.
Defined.

(** ** Loading *)


(** ** Cancelling a placement *)

(** X18.  Starting the relocation of an edited point and cancelling it
    with Escape gives back the state before, except that the dialog's point
    is read again from the list.  Starting add-point mode and cancelling it
    does not: the selection and the edit it cleared stay cleared, and the
    pending category is emptied. *)
Theorem cancelling_a_placement (s : State) (editing : string) :
  isAddingNewPointMode s = false ->
  isSelectingLocation s = false ->
  editingPointId s = Some editing ->
  editing <> "" ->
  let relocating := after (handleChangeLocationStart s) s in
  let adding := after (handleInitiateAddPoint s) s in
  (isSelectingLocation relocating = true
   /\ after (handleKeyDown relocating "Escape") relocating
      = after (setSelectedPoint (findPoint (allPoints s) editing)) s)
  /\ (categoryForNewPoint s <> "" ->
      isAddingNewPointMode adding = true
      /\ after (handleKeyDown adding "Escape") adding
         = after (setSelectedPoint None ;; setEditingPointId None ;;
                  setCategoryForNewPoint "") s).
Proof.
  intros Hadd Hloc Hed Hne relocating adding. subst relocating adding.
  assert (Ht : truthy editing = true).
  { unfold truthy. apply negb_true_iff, String.eqb_neq, Hne. }
  split.
  - unfold handleChangeLocationStart. rewrite Hed. cbn [truthyId]. rewrite Ht.
    unfold handleKeyDown. unfold_actions. simpl. rewrite Hadd, Hed, Ht. simpl.
    destruct s; simpl in *; subst. auto.
  - intros Hcat.
    assert (Hc : truthy (categoryForNewPoint s) = true).
    { unfold truthy. apply negb_true_iff, String.eqb_neq, Hcat. }
    unfold handleInitiateAddPoint. rewrite Hc. cbn [negb].
    unfold handleKeyDown. unfold_actions. simpl.
    destruct s; simpl in *; subst. auto.
Qed.

(** Relocating the glass bank and pressing Escape returns to editing it. *)
Lemma cancelling_a_placement_witness :
  after (handleKeyDown relocatingGlassBank "Escape") relocatingGlassBank = editingGlassBank.
Proof.
  apply (cancelling_a_placement editingGlassBank "p1"); try reflexivity.
  discriminate.
Defined.

(** ** Panning *)

Section PanFacts.

Local Open Scope float_scope.

Lemma sub_self (p : float) : PrimFloat.is_finite p = true -> p - p = 0.
Proof.
  intros Hp. apply finite_is_number in Hp.
  rewrite <- (SF2Prim_Prim2SF (p - p)), sub_spec.
  destruct (Prim2SF p) as [[]|[]| |s m e]; try contradiction; try reflexivity.
  unfold SF64sub, SFsub. rewrite Z.sub_diag. reflexivity.
Qed.

Lemma sub_zero (v : float) : v - 0 = v.
Proof.
  transitivity (SF2Prim (Prim2SF (v - 0))); [symmetry; apply SF2Prim_Prim2SF|].
  transitivity (SF2Prim (Prim2SF v)); [|apply SF2Prim_Prim2SF].
  f_equal. rewrite sub_spec.
  replace (Prim2SF 0) with (S754_zero false) by reflexivity.
  destruct (Prim2SF v) as [[]|[]| |s m e]; reflexivity.
Qed.

End PanFacts.

(** X19.  While a location is picked or a new point is placed, pressing
    the mouse starts no pan and moving it scrolls nothing; so does moving it
    without a press, or after a release.  Otherwise a press at a finite
    position starts a pan from the viewport's scroll offsets, and moving the
    pointer back to where it was pressed assigns those offsets again. *)
Theorem panning_is_off_during_placement (props : State) (pan : MapPan.Pan)
    (scrollLeft scrollTop clientX clientY moveX moveY : float) :
  let pressed :=
    MapPan.handleMouseDown props (Some (scrollLeft, scrollTop)) clientX clientY pan in
  ((isSelectingLocation props = true \/ isAddingNewPointMode props = true) ->
   pressed = pan /\ MapPan.handleMouseMove props true moveX moveY pan = None)
  /\ (MapPan.isPanning pan = false ->
      MapPan.handleMouseMove props true moveX moveY pan = None)
  /\ MapPan.handleMouseMove props true moveX moveY (MapPan.handleMouseUpOrLeave pressed) = None
  /\ (isSelectingLocation props = false -> isAddingNewPointMode props = false ->
      PrimFloat.is_finite clientX = true -> PrimFloat.is_finite clientY = true ->
      MapPan.isPanning pressed = true
      /\ MapPan.handleMouseMove props true clientX clientY pressed
         = Some (scrollLeft, scrollTop)).
Proof.
  intros pressed. subst pressed. unfold MapPan.handleMouseDown, MapPan.handleMouseMove.
  repeat match goal with |- _ /\ _ => split end.
  - intros [-> | ->]; simpl; rewrite ?orb_true_r; split; reflexivity.
  - intros ->. reflexivity.
  - reflexivity.
  - intros -> -> Hx Hy. simpl. rewrite (sub_self _ Hx), (sub_self _ Hy), !sub_zero.
    split; reflexivity.
Qed.

(** A press at (300, 200) with the viewport scrolled to (600, 450), and the
    pointer back at (300, 200). *)
Lemma panning_is_off_during_placement_witness :
  MapPan.handleMouseMove idlePage true 300%float 200%float
    (MapPan.handleMouseDown idlePage (Some (600%float, 450%float)) 300%float 200%float
       MapPan.initialPan)
  = Some (600%float, 450%float).
Proof.
  apply (panning_is_off_during_placement idlePage MapPan.initialPan 600%float 450%float
           300%float 200%float 0%float 0%float); reflexivity.
Defined.

(** ** Filter checkboxes as shown *)

(** X20.  A click on a filter checkbox flips that checkbox and leaves every
    other one as it is shown, duplicates in the selection or not; after a
    reset every registry category is ticked. *)
Theorem checkbox_click_flips_one_box (s : State) (categoryId c : RecyclingCategoryEnum) :
  let clicked := after (CategoryFilter.click s categoryId) s in
  CategoryFilter.checked (selectedCategories clicked) categoryId
    = negb (CategoryFilter.checked (selectedCategories s) categoryId)
  /\ (c <> categoryId ->
      CategoryFilter.checked (selectedCategories clicked) c
      = CategoryFilter.checked (selectedCategories s) c)
  /\ (In c categoryIds ->
      CategoryFilter.checked (selectedCategories (after resetFilters s)) c = true).
Proof.
  intros clicked. subst clicked. unfold CategoryFilter.click, CategoryFilter.checked.
  assert (Hbool : forall l1 l2 v, (In v l1 <-> In v l2) -> includes l1 v = includes l2 v).
  { intros l1 l2 v H. destruct (includes l1 v) eqn:E1, (includes l2 v) eqn:E2; auto.
    - apply includes_In, H, includes_In in E1. congruence.
    - apply includes_In, H, includes_In in E2. congruence. }
  split; [|split].
  - destruct (includes (selectedCategories s) categoryId) eqn:E; cbn [negb].
    + destruct (includes (selectedCategories (after (handleCategoryChange categoryId false) s))
                  categoryId) eqn:E'; [|reflexivity].
      apply includes_In, handleCategoryChange_membership in E'. destruct E' as [_ H].
      contradiction.
    + apply includes_In, handleCategoryChange_membership. right. reflexivity.
  - intros Hne. apply Hbool. rewrite handleCategoryChange_membership.
    destruct (negb _); tauto.
  - intros Hin. apply includes_In. exact Hin.
Qed.

(** Unticking glass on the loaded page leaves paper ticked. *)
Lemma checkbox_click_flips_one_box_witness :
  CategoryFilter.checked
    (selectedCategories (after (CategoryFilter.click idlePage "glass") idlePage)) "paper"
  = true.
Proof.
  refine (proj1 (proj2 (checkbox_click_flips_one_box idlePage "glass" "paper")) _).
  discriminate.
Defined.
